(** * pandera.api.polars.model_components

    A shallow embedding of [FieldInfo.name], [Field] and [_check_dispatch]
    of [pandera/api/polars/model_components.py], and the properties of the
    constraint compiler and of name resolution stated about them. *)

From Stdlib Require Import List String Bool ZArith Permutation.
Import ListNotations.
Local Open Scope string_scope.
Local Open Scope list_scope.

#[local] Set Warnings "-register-all".

(** ** Python values *)

(** The values that reach [Field] and [FieldInfo]: [None], booleans, integers,
    strings, lists (the iterables of [isin] and [notin]) and dictionaries (the
    mappings of [in_range], [str_length], [dtype_kwargs], [metadata]).  A
    dictionary keeps its insertion order; its keys are values of any kind,
    strings or not. *)
Inductive pyval : Type :=
| PyNone
| PyBool (b : bool)
| PyInt (z : Z)
| PyStr (s : string)
| PyList (items : list pyval)
| PyDict (entries : list (pyval * pyval)).

(** [x is None] *)
Definition is_None (v : pyval) : bool :=
  match v with PyNone => true | _ => false end.

(** [isinstance(x, dict)] *)
Definition is_dict (v : pyval) : bool :=
  match v with PyDict _ => true | _ => false end.

(** [type(x).__name__], which is all that Python's error messages say about a
    value. *)
Definition type_name (v : pyval) : string :=
  match v with
  | PyNone => "NoneType"
  | PyBool _ => "bool"
  | PyInt _ => "int"
  | PyStr _ => "str"
  | PyList _ => "list"
  | PyDict _ => "dict"
  end.

(** ** Dictionaries with string keys

    The dictionaries whose keys are strings by construction -- [kwargs],
    [check_kwargs], [locals()], the dispatch table, the registry, the named
    arguments of a call -- are association lists in insertion order.
    Python's own dictionaries have distinct keys; [dict_set] keeps that. *)
Section Dict.
Variable V : Type.

Definition dict := list (string * V).

Definition dict_keys (d : dict) : list string := map fst d.

(** [d.get(k)] as an option, [None] standing for a missing key. *)
Fixpoint dict_get (d : dict) (k : string) : option V :=
  match d with
  | [] => None
  | (k', v) :: rest => if String.eqb k k' then Some v else dict_get rest k
  end.

(** [k in d] *)
Definition dict_mem (k : string) (d : dict) : bool :=
  match dict_get d k with Some _ => true | None => false end.

(** [d.get(k, default)] *)
Definition dict_get_default (d : dict) (k : string) (default : V) : V :=
  match dict_get d k with Some v => v | None => default end.

(** [d[k] = v]: an existing key keeps its position and takes the new value,
    a new key goes to the end. *)
Fixpoint dict_set (d : dict) (k : string) (v : V) : dict :=
  match d with
  | [] => [(k, v)]
  | (k', v') :: rest =>
      if String.eqb k k' then (k', v) :: rest else (k', v') :: dict_set rest k v
  end.

(** [{**d, **extra}] *)
Definition dict_update (d extra : dict) : dict :=
  fold_left (fun acc kv => dict_set acc (fst kv) (snd kv)) extra d.

(** A dictionary with distinct keys, as Python's are. *)
Fixpoint dict_wf (d : dict) : bool :=
  match d with
  | [] => true
  | (k, _) :: rest => negb (dict_mem k rest) && dict_wf rest
  end.

(** The keys that [extra] adds to the keys [seen], in the order in which
    [dict_update] appends them. *)
Fixpoint new_keys (seen : list string) (extra : dict) : list string :=
  match extra with
  | [] => []
  | (k, _) :: rest =>
      if existsb (String.eqb k) seen then new_keys seen rest
      else k :: new_keys (seen ++ [k]) rest
  end.
End Dict.

Arguments dict_keys {V} d.
Arguments dict_get {V} d k.
Arguments dict_mem {V} k d.
Arguments dict_get_default {V} d k default.
Arguments dict_set {V} d k v.
Arguments dict_update {V} d extra.
Arguments dict_wf {V} d.
Arguments new_keys {V} seen extra.

(** ** The check library *)

(** The callables the dispatch table holds: the built-in [Check] class methods
    named in [_check_dispatch], and the callables stored in
    [Check.REGISTERED_CUSTOM_CHECKS], told apart by an identifier. *)
Inductive constructor : Type :=
| Check_equal_to
| Check_not_equal_to
| Check_greater_than
| Check_greater_than_or_equal_to
| Check_less_than
| Check_less_than_or_equal_to
| Check_in_range
| Check_between
| Check_isin
| Check_notin
| Check_str_contains
| Check_str_endswith
| Check_str_matches
| Check_str_length
| Check_str_startswith
| Check_unique_values_eq
| Check_custom (fn : string).

(** Modelled from the spec: the [Check] class ([pandera.api.checks]) is not
    part of the sources.  A constructor "returns an opaque check object" and
    the compiler "never inspects a check object's internals": a check object
    is represented by the call that built it, the callable, its positional
    arguments and its named arguments in the order they were passed.  Whether
    a constructor accepts a call or raises is not decided here: it is the
    parameter [Check_library] of [Field] below. *)
Record Check : Type := mkCheck {
  check_fn : constructor;
  check_args : list pyval;
  check_named : dict pyval
}.

(** ** Exceptions, and the monad of a call

    A call either returns a value or raises; it also leaves a trace, the
    constructor calls made so far, in order.
    [TypeError_multiple_values f k] is Python's
    "f() got multiple values for keyword argument 'k'",
    [TypeError_keywords_must_be_strings] its "keywords must be strings",
    [TypeError_concat t] its "can only concatenate str (not 't') to str",
    which names the type of the operand and not the operand.
    [Propagated e] is an exception [e] raised inside a check constructor or
    inside [polars.col], which [Field] and [name] let through as it is. *)
Inductive exn : Type :=
| SchemaInitError (msg : string)
| TypeError_multiple_values (callee : constructor) (keyword : string)
| TypeError_keywords_must_be_strings
| TypeError_concat (operand_type : string)
| Propagated (description : string).

Inductive result (A : Type) : Type :=
| Ok (a : A)
| Raise (e : exn).

Arguments Ok {A} a.
Arguments Raise {A} e.

Definition M (S A : Type) : Type := S -> S * result A.

Definition ret {S A : Type} (a : A) : M S A := fun s => (s, Ok a).

Definition raise {S A : Type} (e : exn) : M S A := fun s => (s, Raise e).

(** A computation that touches no state. *)
Definition lift {S A : Type} (r : result A) : M S A := fun s => (s, r).

Definition bind {S A B : Type} (m : M S A) (f : A -> M S B) : M S B :=
  fun s =>
    match m s with
    | (s', Ok a) => f a s'
    | (s', Raise e) => (s', Raise e)
    end.

Declare Scope py_scope.
Delimit Scope py_scope with py.
Notation "x <- m ;; k" := (bind m (fun x => k))
  (at level 100, m at next level, right associativity) : py_scope.
Notation "m ;; k" := (bind m (fun _ => k))
  (at level 100, right associativity) : py_scope.
Local Open Scope py_scope.

(** The trace of the constructor calls made so far, each recorded with its
    arguments, the one that raised included. *)
Definition trace := list Check.

(** A call of [Field] from a caller that has constructed nothing yet. *)
Definition run {A : Type} (m : M trace A) : trace * result A := m [].

(** ** Unpacking a dictionary into named arguments *)

(** [k in entries], for a string [k]. *)
Definition has_key (entries : list (pyval * pyval)) (k : string) : bool :=
  existsb (fun kv => match fst kv with
                     | PyStr k' => String.eqb k k'
                     | _ => false
                     end) entries.

(** The entries as named arguments; there are none when a key is not a
    string. *)
Fixpoint keywords (entries : list (pyval * pyval)) : option (dict pyval) :=
  match entries with
  | [] => Some []
  | (PyStr k, v) :: rest =>
      match keywords rest with
      | Some named => Some ((k, v) :: named)
      | None => None
      end
  | _ :: _ => None
  end.

(** A dictionary with string keys as a Python value. *)
Definition as_entries (d : dict pyval) : list (pyval * pyval) :=
  map (fun kv => (PyStr (fst kv), snd kv)) d.

(** The first key of [extra] that [entries] has already: merging the second
    unpacked dictionary into the first stops there. *)
Definition first_duplicate (entries : list (pyval * pyval)) (extra : dict pyval)
  : option string :=
  find (fun k => has_key entries k) (dict_keys extra).

(** ** [_check_dispatch] *)

(** The dictionary display of [_check_dispatch], before the
    [**Check.REGISTERED_CUSTOM_CHECKS] item. *)
Definition fixed_dispatch : dict constructor :=
  [ ("eq", Check_equal_to);
    ("ne", Check_not_equal_to);
    ("gt", Check_greater_than);
    ("ge", Check_greater_than_or_equal_to);
    ("lt", Check_less_than);
    ("le", Check_less_than_or_equal_to);
    ("in_range", Check_in_range);
    ("between", Check_between);
    ("isin", Check_isin);
    ("notin", Check_notin);
    ("str_contains", Check_str_contains);
    ("str_endswith", Check_str_endswith);
    ("str_matches", Check_str_matches);
    ("str_length", Check_str_length);
    ("str_startswith", Check_str_startswith);
    ("unique_values_eq", Check_unique_values_eq) ].

Definition fixed_keywords : list string := dict_keys fixed_dispatch.

(** [_check_dispatch()], reading the class attribute
    [Check.REGISTERED_CUSTOM_CHECKS] at the time of the call. *)
Definition _check_dispatch (REGISTERED_CUSTOM_CHECKS : dict constructor)
  : dict constructor :=
  dict_update fixed_dispatch REGISTERED_CUSTOM_CHECKS.

(** ** [FieldInfo] *)

(** What [FieldInfo.name] returns, [Union[str, Expr]]: [Col x] is the
    expression [col(x)], [Val v] a plain Python value. *)
Inductive pyobj : Type :=
| Val (v : pyval)
| Col (arg : pyval).

(** Modelled from the spec: [polars.col] is not part of the sources; it is "an
    opaque constructor taking a single string argument".  Given a string it
    returns the expression.  What it does with another value is the parameter
    [polars_col]: [None] when it returns an expression all the same, [Some e]
    when it raises [e]. *)
Definition col (polars_col : pyval -> option string) (name : pyval)
  : result pyobj :=
  match name with
  | PyStr _ => Ok (Col name)
  | _ =>
      match polars_col name with
      | None => Ok (Col name)
      | Some e => Raise (Propagated e)
      end
  end.

Module FieldInfo.

(** A descriptor, represented by what its constructor was called with.

    Modelled from the spec: the base class
    [pandera.api.dataframe.model_components.FieldInfo] is not part of the
    sources; the descriptor "holds a field's declared properties".  [checks]
    is the [checks] argument of the call [FieldInfo(checks=..., ...)]; what
    the base class makes of it is not modelled.  [original_name] is "assigned
    by the external schema-model layer" and is [None] until then. *)
Record t : Type := mk {
  checks : option (list Check);
  nullable : bool;
  unique : bool;
  coerce : bool;
  regex : bool;
  check_name : pyval;
  alias : pyval;
  title : pyval;
  description : pyval;
  default : pyval;
  dtype_kwargs : pyval;
  metadata : pyval;
  return_expresion : bool;
  original_name : pyval
}.

(** The assignment [self.original_name = v] of the schema-model layer. *)
Definition set_original_name (self : t) (v : pyval) : t :=
  mk (checks self) (nullable self) (unique self) (coerce self) (regex self)
     (check_name self) (alias self) (title self) (description self)
     (default self) (dtype_kwargs self) (metadata self)
     (return_expresion self) v.

(** Reading an attribute of [self]; the state of a method is the object. *)
Definition getattr {A : Type} (attr : t -> A) : M t A :=
  fun self => (self, Ok (attr self)).

(** [s + v] for a string [s]: only a string can be added to a string. *)
Definition str_add (s : string) (v : pyval) : M t string :=
  match v with
  | PyStr s' => ret (s ++ s')%string
  | _ => raise (TypeError_concat (type_name v))
  end.

(** The property [name]. *)
Definition name (polars_col : pyval -> option string) : M t pyobj :=
  return_name <- getattr original_name ;;
  alias_ <- getattr alias ;;
  let return_name := if is_None alias_ then return_name else alias_ in
  return_expresion_ <- getattr return_expresion ;;
  if (return_expresion_ : bool) then
    regex_ <- getattr regex ;;
    return_name <-
      (if (regex_ : bool) then
         left <- str_add "^" return_name ;;
         both <- str_add left (PyStr "$") ;;
         ret (PyStr both)
       else ret return_name) ;;
    lift (col polars_col return_name)
  else ret (Val return_name).

End FieldInfo.

(** ** [Field] *)

(** The keyword-only parameters of [Field] and its [**kwargs].  The parameters
    annotated [bool] are booleans; the others hold any value, [None] by
    default. *)
Module Kw.

Record t : Type := mk {
  eq : pyval;
  ne : pyval;
  gt : pyval;
  ge : pyval;
  lt : pyval;
  le : pyval;
  in_range : pyval;
  isin : pyval;
  notin : pyval;
  str_contains : pyval;
  str_endswith : pyval;
  str_length : pyval;
  str_matches : pyval;
  str_startswith : pyval;
  nullable : bool;
  unique : bool;
  coerce : bool;
  regex : bool;
  ignore_na : bool;
  raise_warning : bool;
  n_failure_cases : pyval;
  alias : pyval;
  check_name : pyval;
  dtype_kwargs : pyval;
  title : pyval;
  description : pyval;
  default : pyval;
  metadata : pyval;
  return_expresion : bool;
  kwargs : dict pyval
}.

(** The call [Field()]: every parameter at its default, no extra keyword. *)
Definition defaults : t :=
  mk PyNone PyNone PyNone PyNone PyNone PyNone PyNone PyNone PyNone PyNone
     PyNone PyNone PyNone PyNone
     false false false false true false
     PyNone PyNone PyNone PyNone PyNone PyNone PyNone PyNone
     false [].

(** The same call with other extra keywords. *)
Definition with_kwargs (a : t) (kw : dict pyval) : t :=
  mk (eq a) (ne a) (gt a) (ge a) (lt a) (le a) (in_range a) (isin a)
     (notin a) (str_contains a) (str_endswith a) (str_length a)
     (str_matches a) (str_startswith a)
     (nullable a) (unique a) (coerce a) (regex a) (ignore_na a)
     (raise_warning a) (n_failure_cases a) (alias a) (check_name a)
     (dtype_kwargs a) (title a) (description a) (default a) (metadata a)
     (return_expresion a) kw.

End Kw.

(** The local [check_kwargs]. *)
Definition check_kwargs (a : Kw.t) : dict pyval :=
  [ ("ignore_na", PyBool (Kw.ignore_na a));
    ("raise_warning", PyBool (Kw.raise_warning a));
    ("n_failure_cases", Kw.n_failure_cases a) ].

(** [locals()] where [Field] calls it: the parameters, [kwargs] and
    [check_kwargs]; [args], [checks] and [check_dispatch] are bound later. *)
Definition locals (a : Kw.t) : dict pyval :=
  [ ("eq", Kw.eq a);
    ("ne", Kw.ne a);
    ("gt", Kw.gt a);
    ("ge", Kw.ge a);
    ("lt", Kw.lt a);
    ("le", Kw.le a);
    ("in_range", Kw.in_range a);
    ("isin", Kw.isin a);
    ("notin", Kw.notin a);
    ("str_contains", Kw.str_contains a);
    ("str_endswith", Kw.str_endswith a);
    ("str_length", Kw.str_length a);
    ("str_matches", Kw.str_matches a);
    ("str_startswith", Kw.str_startswith a);
    ("nullable", PyBool (Kw.nullable a));
    ("unique", PyBool (Kw.unique a));
    ("coerce", PyBool (Kw.coerce a));
    ("regex", PyBool (Kw.regex a));
    ("ignore_na", PyBool (Kw.ignore_na a));
    ("raise_warning", PyBool (Kw.raise_warning a));
    ("n_failure_cases", Kw.n_failure_cases a);
    ("alias", Kw.alias a);
    ("check_name", Kw.check_name a);
    ("dtype_kwargs", Kw.dtype_kwargs a);
    ("title", Kw.title a);
    ("description", Kw.description a);
    ("default", Kw.default a);
    ("metadata", Kw.metadata a);
    ("return_expresion", PyBool (Kw.return_expresion a));
    ("kwargs", PyDict (as_entries (Kw.kwargs a)));
    ("check_kwargs", PyDict (as_entries (check_kwargs a))) ].

(** The message of the [SchemaInitError]. *)
Definition not_available (key : string) : string :=
  ("custom check '" ++ key ++ "' is not available. Make sure you use "
   ++ "pandera.extensions.register_check_method decorator to "
   ++ "register your custom check method.")%string.

(** The first loop: [for key in kwargs]. *)
Fixpoint validate_kwargs (check_dispatch : dict constructor) (keys : list string)
  : M trace unit :=
  match keys with
  | [] => ret tt
  | key :: rest =>
      if dict_mem key check_dispatch then validate_kwargs check_dispatch rest
      else raise (SchemaInitError (not_available key))
  end.

(** [args.get(arg_name, kwargs.get(arg_name))] *)
Definition arg_value (a : Kw.t) (arg_name : string) : pyval :=
  dict_get_default (locals a) arg_name
    (dict_get_default (Kw.kwargs a) arg_name PyNone).


(** [checks or None] *)
Definition or_None (checks : list Check) : option (list Check) :=
  match checks with
  | [] => None
  | _ :: _ => Some checks
  end.

(** The descriptor [Field] returns: [FieldInfo(checks=..., nullable=nullable,
    ..., return_expresion=return_expresion)]. *)
Definition descriptor (a : Kw.t) (checks : option (list Check)) : FieldInfo.t :=
  FieldInfo.mk checks (Kw.nullable a) (Kw.unique a) (Kw.coerce a) (Kw.regex a)
    (Kw.check_name a) (Kw.alias a) (Kw.title a) (Kw.description a)
    (Kw.default a) (Kw.dtype_kwargs a) (Kw.metadata a) (Kw.return_expresion a)
    PyNone.

(** ** Vocabulary of the statements *)

(** The first extra keyword that the dispatch table does not have. *)
Definition first_unknown (check_dispatch : dict constructor) (keys : list string)
  : option string :=
  find (fun key => negb (dict_mem key check_dispatch)) keys.

(** A keyword is set when the value [Field] reads for it is not [None]. *)
Definition is_set (a : Kw.t) (item : string * constructor) : bool :=
  negb (is_None (arg_value a (fst item))).

(** No other keyword of the table than [k] is set. *)
Definition only_set (a : Kw.t) (k : string) (items : dict constructor) : bool :=
  forallb (fun k' => String.eqb k' k || is_None (arg_value a k')) (dict_keys items).

(** The value of a keyword can be passed on: it is not a dictionary that has
    one of the keys of [check_kwargs], or a key that is not a string. *)
Definition unpackable (a : Kw.t) (arg_name : string) : bool :=
  match arg_value a arg_name with
  | PyDict entries =>
      match first_duplicate entries (check_kwargs a), keywords entries with
      | None, Some _ => true
      | _, _ => false
      end
  | _ => true
  end.

(** The call that an entry of the dispatch table stands for, when its value
    can be passed on: the entries of a dictionary as named arguments followed
    by the shared options, any other value as the one positional argument,
    with the shared options. *)
Definition check_of (a : Kw.t) (item : string * constructor) : Check :=
  match arg_value a (fst item) with
  | PyDict entries =>
      mkCheck (snd item) []
        (match keywords entries with Some named => named | None => [] end
         ++ check_kwargs a)
  | v => mkCheck (snd item) [v] (check_kwargs a)
  end.

(** The exceptions of a constructor call: a keyword given twice, a keyword
    that is not a string, or whatever the constructor raises. *)
Definition raised_by_construction (e : exn) : Prop :=
  (exists callee keyword, e = TypeError_multiple_values callee keyword)
  \/ e = TypeError_keywords_must_be_strings
  \/ (exists description, e = Propagated description).

(** Two calls of the same callable with the same positional arguments and the
    same named arguments, given in any order. *)
Definition same_call (c c' : Check) : Prop :=
  check_fn c = check_fn c'
  /\ check_args c = check_args c'
  /\ Permutation (check_named c) (check_named c').

(** Lines 37 to 39 of [FieldInfo.name]: the alias when there is one, the
    declared name otherwise. *)
Definition effective_name (self : FieldInfo.t) : pyval :=
  if is_None (FieldInfo.alias self) then FieldInfo.original_name self
  else FieldInfo.alias self.

(** ** A check library and a [col] for the examples *)

(** The bounds [min_value] and [max_value] are both given, by position or by
    name. *)
Definition has_bounds (args : list pyval) (named : dict pyval) : bool :=
  match args with
  | [] => dict_mem "min_value" named && dict_mem "max_value" named
  | [_] => dict_mem "max_value" named
  | _ => true
  end.

(** A check library in which, as in pandera, [Check.in_range] and its alias
    [Check.between] need both bounds; every other call returns a check. *)
Definition bounds_required (f : constructor) (args : list pyval)
    (named : dict pyval) : option string :=
  match f with
  | Check_in_range | Check_between =>
      if has_bounds args named then None
      else Some "TypeError: missing a required positional argument"
  | _ => None
  end.

(** A [col] that takes strings only. *)
Definition strings_only (v : pyval) : option string :=
  Some ("TypeError: invalid input for col, a " ++ type_name v)%string.

(** ** Some calls *)

(** [Field(eq=5)] *)
Definition Field_eq_5 : Kw.t :=
  Kw.mk (PyInt 5) PyNone PyNone PyNone PyNone PyNone PyNone PyNone PyNone PyNone
    PyNone PyNone PyNone PyNone
    false false false false true false
    PyNone PyNone PyNone PyNone PyNone PyNone PyNone PyNone
    false [].


(** [Field(in_range={"min_value": 0, "max_value": 10})] *)
Definition Field_in_range_0_10 : Kw.t :=
  Kw.mk PyNone PyNone PyNone PyNone PyNone PyNone
    (PyDict [(PyStr "min_value", PyInt 0); (PyStr "max_value", PyInt 10)])
    PyNone PyNone PyNone PyNone PyNone PyNone PyNone
    false false false false true false
    PyNone PyNone PyNone PyNone PyNone PyNone PyNone PyNone
    false [].

(** [Field(in_range={"min_value": 0, "max_value": 10, "ignore_na": False})] *)
Definition Field_in_range_ignore_na : Kw.t :=
  Kw.mk PyNone PyNone PyNone PyNone PyNone PyNone
    (PyDict [(PyStr "min_value", PyInt 0); (PyStr "max_value", PyInt 10);
             (PyStr "ignore_na", PyBool false)])
    PyNone PyNone PyNone PyNone PyNone PyNone PyNone
    false false false false true false
    PyNone PyNone PyNone PyNone PyNone PyNone PyNone PyNone
    false [].

(** [Field(in_range={"min_value": 0, 10: "max_value"})], a key that is not a
    string *)
Definition Field_in_range_int_key : Kw.t :=
  Kw.mk PyNone PyNone PyNone PyNone PyNone PyNone
    (PyDict [(PyStr "min_value", PyInt 0); (PyInt 10, PyStr "max_value")])
    PyNone PyNone PyNone PyNone PyNone PyNone PyNone
    false false false false true false
    PyNone PyNone PyNone PyNone PyNone PyNone PyNone PyNone
    false [].


(** [Field(eq=False, ne=0, isin=[], str_contains="")] *)
Definition Field_falsy : Kw.t :=
  Kw.mk (PyBool false) (PyInt 0) PyNone PyNone PyNone PyNone
    PyNone (PyList []) PyNone (PyStr "") PyNone PyNone PyNone PyNone
    false false false false true false
    PyNone PyNone PyNone PyNone PyNone PyNone PyNone PyNone
    false [].

(** [Field(gt=5, isin=[1, 2, 3], str_startswith="a", is_even=True,
    between={"min_value": 0, "max_value": 3})] *)
Definition Field_several : Kw.t :=
  Kw.mk PyNone PyNone (PyInt 5) PyNone PyNone PyNone PyNone
    (PyList [PyInt 1; PyInt 2; PyInt 3]) PyNone PyNone PyNone PyNone PyNone
    (PyStr "a")
    false false false false true false
    PyNone PyNone PyNone PyNone PyNone PyNone PyNone PyNone
    false
    [ ("is_even", PyBool true);
      ("between",
       PyDict [(PyStr "min_value", PyInt 0); (PyStr "max_value", PyInt 3)]) ].

(** [Field(gt=5, in_range={"min_value": 0, "raise_warning": True,
    "ignore_na": False}, str_matches="a")] *)
Definition Field_gt_in_range_clash : Kw.t :=
  Kw.mk PyNone PyNone (PyInt 5) PyNone PyNone PyNone
    (PyDict [(PyStr "min_value", PyInt 0); (PyStr "raise_warning", PyBool true);
             (PyStr "ignore_na", PyBool false)])
    PyNone PyNone PyNone PyNone PyNone (PyStr "a") PyNone
    false false false false true false
    PyNone PyNone PyNone PyNone PyNone PyNone PyNone PyNone
    false [].

(** ** Some descriptors *)

(** The descriptor with [original_name = "a"] and [alias = "b"], in the given
    mode. *)
Definition a_aliased_b (regex return_expresion : bool) : FieldInfo.t :=
  FieldInfo.mk None false false false regex PyNone (PyStr "b") PyNone PyNone
    PyNone PyNone PyNone return_expresion (PyStr "a").

(** The descriptor with [alias = "x"], in the given mode. *)
Definition aliased_x (regex return_expresion : bool) : FieldInfo.t :=
  FieldInfo.mk None false false false regex PyNone (PyStr "x") PyNone PyNone
    PyNone PyNone PyNone return_expresion PyNone.

(** The descriptor declared as [name], without alias, in the given mode. *)
Definition declared (name : string) (regex return_expresion : bool)
  : FieldInfo.t :=
  FieldInfo.mk None false false false regex PyNone PyNone PyNone PyNone
    PyNone PyNone PyNone return_expresion (PyStr name).

(** * The compiler, given a check library *)

Section Externals.

(** What the check library does with a call of one of its constructors:
    [None] when the constructor returns the check object, [Some e] when it
    raises the exception [e].  The library is not part of the sources; nothing
    is assumed of it. *)
Variable Check_library : constructor -> list pyval -> dict pyval -> option string.

(** What [polars.col] does with a value that is not a string. *)
Variable polars_col : pyval -> option string.

(** A constructor call: it is recorded, and it returns the check object or
    lets the constructor's exception through. *)
Definition invoke (f : constructor) (args : list pyval) (named : dict pyval)
  : M trace Check :=
  fun tr =>
    let c := mkCheck f args named in
    match Check_library f args named with
    | None => (tr ++ [c], Ok c)
    | Some e => (tr ++ [c], Raise (Propagated e))
    end.

(** A call of [f] with positional [args] and the two dictionaries [entries]
    and [extra] unpacked as keywords.  Python refuses a keyword given twice
    when it merges the two dictionaries, and a keyword that is not a string
    when it makes the call; in both cases [f] is not entered. *)
Definition call (f : constructor) (args : list pyval)
    (entries : list (pyval * pyval)) (extra : dict pyval) : M trace Check :=
  match first_duplicate entries extra with
  | Some k => raise (TypeError_multiple_values f k)
  | None =>
      match keywords entries with
      | None => raise TypeError_keywords_must_be_strings
      | Some named => invoke f args (named ++ extra)
      end
  end.

(** The two calls of the second loop: a dictionary is unpacked into named
    arguments, any other value is passed positionally. *)
Definition construct (check_constructor : constructor) (arg_value : pyval)
    (check_kwargs : dict pyval) : M trace Check :=
  match arg_value with
  | PyDict entries => call check_constructor [] entries check_kwargs
  | _ => invoke check_constructor [arg_value] check_kwargs
  end.

(** The second loop: [for arg_name, check_constructor in check_dispatch.items()],
    with the list [checks] it appends to. *)
Fixpoint build_checks (a : Kw.t) (items : dict constructor) (checks : list Check)
  : M trace (list Check) :=
  match items with
  | [] => ret checks
  | (arg_name, check_constructor) :: rest =>
      let arg_value := arg_value a arg_name in
      if is_None arg_value then build_checks a rest checks
      else
        check_ <- construct check_constructor arg_value (check_kwargs a) ;;
        build_checks a rest (checks ++ [check_])
  end.

(** [Field], given the contents of [Check.REGISTERED_CUSTOM_CHECKS] when it
    is called. *)
Definition Field (REGISTERED_CUSTOM_CHECKS : dict constructor) (a : Kw.t)
  : M trace FieldInfo.t :=
  let check_dispatch := _check_dispatch REGISTERED_CUSTOM_CHECKS in
  validate_kwargs check_dispatch (dict_keys (Kw.kwargs a)) ;;
  checks <- build_checks a check_dispatch [] ;;
  ret (descriptor a (or_None checks)).

(** The library accepts the call that an entry stands for. *)
Definition accepted (a : Kw.t) (item : string * constructor) : bool :=
  match Check_library (check_fn (check_of a item)) (check_args (check_of a item))
          (check_named (check_of a item)) with
  | None => true
  | Some _ => false
  end.

(** The second loop gets past an entry: it is not set, or its value can be
    passed on and the library accepts the call. *)
Definition passes (a : Kw.t) (item : string * constructor) : bool :=
  negb (is_set a item) || (unpackable a (fst item) && accepted a item).

(** * Properties *)

(** ** Dictionaries *)

Section DictFacts.
Variable V : Type.
Implicit Types (d e : dict V) (k : string) (v : V).

Lemma dict_mem_cons k k' v d :
  dict_mem k ((k', v) :: d) = String.eqb k k' || dict_mem k d.
Proof.
  unfold dict_mem; simpl. destruct (String.eqb k k'); reflexivity.
Qed.

Lemma dict_mem_In k d : dict_mem k d = true <-> In k (dict_keys d).
Proof.
  induction d as [|[k' v'] d IH]; simpl.
  - unfold dict_mem; simpl. split; [discriminate | contradiction].
  - rewrite dict_mem_cons, orb_true_iff, IH, String.eqb_eq.
    split; intros [H|H]; auto.
Qed.

Lemma dict_mem_false k d : dict_mem k d = false <-> ~ In k (dict_keys d).
Proof.
  rewrite <- dict_mem_In. destruct (dict_mem k d); split; intro H; auto.
  - discriminate.
  - exfalso; auto.
Qed.

Lemma dict_get_mem k d v : dict_get d k = Some v -> dict_mem k d = true.
Proof. unfold dict_mem. intros ->. reflexivity. Qed.

Lemma dict_get_None k d : dict_get d k = None <-> dict_mem k d = false.
Proof. unfold dict_mem. destruct (dict_get d k); split; congruence. Qed.

Lemma dict_wf_NoDup d : dict_wf d = true <-> NoDup (dict_keys d).
Proof.
  induction d as [|[k v] d IH]; simpl.
  - split; [constructor | reflexivity].
  - rewrite andb_true_iff, negb_true_iff, dict_mem_false, IH.
    split.
    + intros [H1 H2]. constructor; assumption.
    + intros H. inversion H; subst. split; assumption.
Qed.

Lemma dict_get_set_same d k v : dict_get (dict_set d k v) k = Some v.
Proof.
  induction d as [|[k' v'] d IH]; simpl.
  - rewrite String.eqb_refl. reflexivity.
  - destruct (String.eqb k k') eqn:E; simpl; rewrite E; auto.
Qed.

Lemma dict_get_set_other d k k' v :
  k' <> k -> dict_get (dict_set d k v) k' = dict_get d k'.
Proof.
  intros Hne. induction d as [|[k0 v0] d IH]; simpl.
  - apply String.eqb_neq in Hne. rewrite Hne. reflexivity.
  - destruct (String.eqb k k0) eqn:E; simpl.
    + apply String.eqb_eq in E; subst k0.
      apply String.eqb_neq in Hne. rewrite Hne. reflexivity.
    + rewrite IH. reflexivity.
Qed.

Lemma dict_mem_set d k k' v :
  dict_mem k' (dict_set d k v) = String.eqb k' k || dict_mem k' d.
Proof.
  unfold dict_mem. destruct (String.eqb k' k) eqn:E; simpl.
  - apply String.eqb_eq in E; subst. rewrite dict_get_set_same. reflexivity.
  - apply String.eqb_neq in E. rewrite dict_get_set_other by assumption.
    reflexivity.
Qed.

Lemma dict_keys_set d k v :
  dict_keys (dict_set d k v)
  = if dict_mem k d then dict_keys d else dict_keys d ++ [k].
Proof.
  induction d as [|[k' v'] d IH]; simpl.
  - reflexivity.
  - rewrite dict_mem_cons. destruct (String.eqb k k') eqn:E; simpl.
    + reflexivity.
    + rewrite IH. destruct (dict_mem k d); reflexivity.
Qed.

Lemma dict_wf_set d k v : dict_wf d = true -> dict_wf (dict_set d k v) = true.
Proof.
  rewrite !dict_wf_NoDup, dict_keys_set. intros H.
  destruct (dict_mem k d) eqn:E; [assumption|].
  apply dict_mem_false in E.
  apply NoDup_app; [assumption | repeat constructor; intros [] | ].
  intros x Hx [<-|[]]. contradiction.
Qed.

Lemma dict_wf_update d e : dict_wf d = true -> dict_wf (dict_update d e) = true.
Proof.
  unfold dict_update. revert d.
  induction e as [|[k v] e IH]; intros d H; simpl; [assumption|].
  apply IH, dict_wf_set, H.
Qed.

Lemma dict_mem_update d e k :
  dict_mem k (dict_update d e) = dict_mem k d || dict_mem k e.
Proof.
  unfold dict_update. revert d.
  induction e as [|[k' v'] e IH]; intros d; simpl.
  - unfold dict_mem at 3; simpl. rewrite orb_false_r. reflexivity.
  - rewrite IH, dict_mem_set, dict_mem_cons.
    destruct (String.eqb k k'), (dict_mem k d), (dict_mem k e); reflexivity.
Qed.

(** [{**d, **e}] looks a key up in [e] first, when the keys of [e] are
    distinct. *)
Lemma dict_get_update d e k :
  dict_wf e = true ->
  dict_get (dict_update d e) k
  = match dict_get e k with Some v => Some v | None => dict_get d k end.
Proof.
  unfold dict_update. revert d.
  induction e as [|[k' v'] e IH]; intros d Hwf; simpl; [reflexivity|].
  simpl in Hwf. apply andb_true_iff in Hwf as [Hk He].
  apply negb_true_iff in Hk.
  rewrite IH by assumption.
  destruct (String.eqb k k') eqn:E.
  - apply String.eqb_eq in E; subst k'.
    apply dict_get_None in Hk. rewrite Hk. apply dict_get_set_same.
  - apply String.eqb_neq in E.
    destruct (dict_get e k); [reflexivity|].
    apply dict_get_set_other; assumption.
Qed.

Lemma existsb_eqb_mem k d : existsb (String.eqb k) (dict_keys d) = dict_mem k d.
Proof.
  induction d as [|[k' v'] d IH]; simpl.
  - reflexivity.
  - rewrite dict_mem_cons, IH. reflexivity.
Qed.

Lemma dict_keys_update d e :
  dict_keys (dict_update d e) = dict_keys d ++ new_keys (dict_keys d) e.
Proof.
  unfold dict_update. revert d.
  induction e as [|[k v] e IH]; intros d; simpl.
  - rewrite app_nil_r. reflexivity.
  - rewrite IH, dict_keys_set, existsb_eqb_mem.
    destruct (dict_mem k d); [reflexivity|].
    rewrite <- app_assoc. reflexivity.
Qed.
End DictFacts.

Lemma dict_get_In {V : Type} (d : dict V) k v : dict_get d k = Some v -> In (k, v) d.
Proof.
  induction d as [|[k' v'] d IH]; simpl; [discriminate|].
  destruct (String.eqb k k') eqn:E.
  - apply String.eqb_eq in E. intros [= ->]. subst. auto.
  - auto.
Qed.

Lemma In_dict_get {V : Type} (d : dict V) k v :
  dict_wf d = true -> In (k, v) d -> dict_get d k = Some v.
Proof.
  induction d as [|[k' v'] d IH]; simpl; [contradiction|].
  intros Hwf [H|H]; apply andb_true_iff in Hwf as [Hk Hd].
  - inversion H; subst. rewrite String.eqb_refl. reflexivity.
  - destruct (String.eqb k k') eqn:E; [|auto].
    apply String.eqb_eq in E; subst k'.
    apply negb_true_iff, dict_mem_false in Hk.
    exfalso. apply Hk. apply (in_map fst) in H. exact H.
Qed.

Lemma dict_get_update_other {V : Type} (d e : dict V) k :
  dict_mem k e = false -> dict_get (dict_update d e) k = dict_get d k.
Proof.
  unfold dict_update. revert d.
  induction e as [|[k' v'] e IH]; intros d H; simpl; [reflexivity|].
  rewrite dict_mem_cons in H. apply orb_false_iff in H as [Hk He].
  rewrite IH by assumption. apply dict_get_set_other.
  apply String.eqb_neq. assumption.
Qed.


Lemma dict_mem_Permutation {V : Type} (d d' : dict V) k :
  Permutation d d' -> dict_mem k d' = dict_mem k d.
Proof.
  intros P.
  destruct (dict_mem k d) eqn:E.
  - apply dict_mem_In. apply dict_mem_In in E.
    eapply Permutation_in; [|exact E]. apply Permutation_map, P.
  - apply dict_mem_false. apply dict_mem_false in E.
    intros H. apply E. eapply Permutation_in; [|exact H].
    apply Permutation_sym, Permutation_map, P.
Qed.

(** ** Unpacking *)

Lemma keywords_as_entries (d : dict pyval) : keywords (as_entries d) = Some d.
Proof.
  induction d as [|[k v] d IH]; simpl; [reflexivity|]. rewrite IH. reflexivity.
Qed.

Lemma has_key_as_entries (d : dict pyval) k : has_key (as_entries d) k = dict_mem k d.
Proof.
  unfold has_key. induction d as [|[k' v'] d IH]; simpl; [reflexivity|].
  rewrite dict_mem_cons, IH. reflexivity.
Qed.

Lemma has_key_keywords entries named k :
  keywords entries = Some named -> has_key entries k = dict_mem k named.
Proof.
  revert named. unfold has_key.
  induction entries as [|[key v] entries IH]; intros named H; simpl in H.
  - injection H as <-. reflexivity.
  - destruct key; try discriminate.
    destruct (keywords entries) as [named'|]; [|discriminate].
    injection H as <-. simpl. rewrite dict_mem_cons, (IH named') by reflexivity.
    reflexivity.
Qed.

(** ** The two loops of [Field] *)

Lemma find_split {A : Type} (f : A -> bool) l x :
  find f l = Some x ->
  exists pre post,
    l = pre ++ x :: post /\ forallb (fun y => negb (f y)) pre = true /\ f x = true.
Proof.
  induction l as [|y l IH]; simpl; [discriminate|].
  destruct (f y) eqn:E.
  - intros [= ->]. exists [], l. auto.
  - intros H. destruct (IH H) as (pre & post & -> & P & X).
    exists (y :: pre), post. simpl. rewrite E. auto.
Qed.

Lemma find_app_first {A : Type} (f : A -> bool) pre x post :
  forallb (fun y => negb (f y)) pre = true -> f x = true ->
  find f (pre ++ x :: post) = Some x.
Proof.
  intros P X. induction pre as [|y pre IH]; simpl in *.
  - rewrite X. reflexivity.
  - apply andb_true_iff in P as [Py P]. apply negb_true_iff in Py.
    rewrite Py. auto.
Qed.

Lemma validate_kwargs_run (check_dispatch : dict constructor) keys (tr : trace) :
  validate_kwargs check_dispatch keys tr
  = (tr, match first_unknown check_dispatch keys with
         | Some key => Raise (SchemaInitError (not_available key))
         | None => Ok tt
         end).
Proof.
  induction keys as [|key keys IH]; simpl; [reflexivity|].
  destruct (dict_mem key check_dispatch); simpl; [apply IH | reflexivity].
Qed.

Lemma first_unknown_None (check_dispatch : dict constructor) keys :
  first_unknown check_dispatch keys = None
  <-> forall key, In key keys -> dict_mem key check_dispatch = true.
Proof.
  unfold first_unknown. split.
  - intros H key Hin. pose proof (find_none _ _ H key Hin) as F.
    cbv beta in F. apply negb_false_iff in F. exact F.
  - intros H. destruct (find _ keys) as [bad|] eqn:F; [|reflexivity].
    apply find_some in F as [Hin Hb]. rewrite (H bad Hin) in Hb. discriminate.
Qed.


Lemma forallb_first_unknown (check_dispatch : dict constructor) keys :
  forallb (fun key => dict_mem key check_dispatch) keys = true ->
  first_unknown check_dispatch keys = None.
Proof.
  intros H. apply first_unknown_None. apply forallb_forall, H.
Qed.

(** What [construct] does with the value of an entry that is set. *)
Lemma construct_run a k c (tr : trace) :
  construct c (arg_value a k) (check_kwargs a) tr
  = match arg_value a k with
    | PyDict entries =>
        match first_duplicate entries (check_kwargs a), keywords entries with
        | Some dup, _ => (tr, Raise (TypeError_multiple_values c dup))
        | None, None => (tr, Raise TypeError_keywords_must_be_strings)
        | None, Some _ =>
            (tr ++ [check_of a (k, c)],
             match Check_library c [] (check_named (check_of a (k, c))) with
             | None => Ok (check_of a (k, c))
             | Some e => Raise (Propagated e)
             end)
        end
    | v =>
        (tr ++ [check_of a (k, c)],
         match Check_library c [v] (check_kwargs a) with
         | None => Ok (check_of a (k, c))
         | Some e => Raise (Propagated e)
         end)
    end.
Proof.
  unfold construct, call, invoke, check_of; simpl fst; simpl snd.
  destruct (arg_value a k) eqn:E; simpl;
    try (destruct (Check_library c _ (check_kwargs a)); reflexivity).
  destruct (first_duplicate entries (check_kwargs a)); [reflexivity|].
  destruct (keywords entries) as [named|]; [|reflexivity].
  unfold invoke. simpl.
  destruct (Check_library c [] (named ++ check_kwargs a)); reflexivity.
Qed.

Lemma construct_ok a k c (tr : trace) :
  unpackable a k = true ->
  accepted a (k, c) = true ->
  construct c (arg_value a k) (check_kwargs a) tr
  = (tr ++ [check_of a (k, c)], Ok (check_of a (k, c))).
Proof.
  intros U A. rewrite construct_run.
  unfold unpackable in U. unfold accepted in A. revert A.
  unfold check_of at 1 2 3; simpl fst; simpl snd.
  destruct (arg_value a k) eqn:E; simpl;
    try (destruct (Check_library c _ (check_kwargs a)); [discriminate | reflexivity]).
  destruct (first_duplicate entries (check_kwargs a)); [discriminate|].
  destruct (keywords entries) as [named|] eqn:K; [|discriminate].
  unfold check_of; simpl fst; simpl snd. rewrite E, K. simpl.
  destruct (Check_library c [] (named ++ check_kwargs a)); [discriminate | reflexivity].
Qed.

Lemma construct_fails a k c (tr : trace) :
  is_None (arg_value a k) = false ->
  unpackable a k && accepted a (k, c) = false ->
  exists tr' e,
    construct c (arg_value a k) (check_kwargs a) tr = (tr', Raise e)
    /\ raised_by_construction e.
Proof.
  intros V P. rewrite construct_run. unfold raised_by_construction.
  unfold unpackable, accepted in P. revert P.
  unfold check_of at 1 2 3; simpl fst; simpl snd.
  destruct (arg_value a k) eqn:E; simpl; try discriminate;
    try (destruct (Check_library c _ (check_kwargs a)); [|discriminate];
         intros _; eexists _, _; split; [reflexivity | eauto]).
  destruct (first_duplicate entries (check_kwargs a)).
  - intros _. eexists _, _. split; [reflexivity | eauto].
  - destruct (keywords entries) as [named|] eqn:K.
    + unfold check_of; simpl fst; simpl snd. rewrite E, K. simpl.
      destruct (Check_library c [] (named ++ check_kwargs a)); [|discriminate].
      intros _. eexists _, _. split; [reflexivity | eauto].
    + intros _. eexists _, _. split; [reflexivity | eauto].
Qed.

(** When every entry passes, the second loop constructs one check for each
    entry that is set, in the order of the table. *)
Lemma build_checks_ok a items : forall checks (tr : trace),
  forallb (passes a) items = true ->
  build_checks a items checks tr
  = (tr ++ map (check_of a) (filter (is_set a) items),
     Ok (checks ++ map (check_of a) (filter (is_set a) items))).
Proof.
  induction items as [|[k c] items IH]; intros checks tr H.
  - simpl. rewrite !app_nil_r. reflexivity.
  - simpl in H. apply andb_true_iff in H as [Hk H].
    cbn [build_checks filter]. unfold passes in Hk. simpl fst in Hk.
    change (is_set a (k, c)) with (negb (is_None (arg_value a k))) in *.
    destruct (is_None (arg_value a k)) eqn:E; cbn [negb map] in *.
    + apply IH, H.
    + simpl in Hk. apply andb_true_iff in Hk as [U A].
      unfold bind. rewrite construct_ok by assumption.
      rewrite IH by assumption. rewrite <- !app_assoc. reflexivity.
Qed.

Lemma build_checks_app a pre rest : forall checks (tr : trace),
  forallb (passes a) pre = true ->
  build_checks a (pre ++ rest) checks tr
  = build_checks a rest
      (checks ++ map (check_of a) (filter (is_set a) pre))
      (tr ++ map (check_of a) (filter (is_set a) pre)).
Proof.
  induction pre as [|[k c] pre IH]; intros checks tr H.
  - simpl. rewrite !app_nil_r. reflexivity.
  - simpl in H. apply andb_true_iff in H as [Hk H].
    cbn [app build_checks filter]. unfold passes in Hk. simpl fst in Hk.
    change (is_set a (k, c)) with (negb (is_None (arg_value a k))) in *.
    destruct (is_None (arg_value a k)) eqn:E; cbn [negb map] in *.
    + apply IH, H.
    + simpl in Hk. apply andb_true_iff in Hk as [U A].
      unfold bind. rewrite construct_ok by assumption.
      rewrite IH by assumption. rewrite <- !app_assoc. reflexivity.
Qed.

(** The second loop returns only then, and raises nothing but what a
    constructor call raises. *)
Lemma build_checks_inv a items : forall checks (tr tr' : trace) r,
  build_checks a items checks tr = (tr', r) ->
  match r with
  | Ok _ => forallb (passes a) items = true
  | Raise e => forallb (passes a) items = false /\ raised_by_construction e
  end.
Proof.
  induction items as [|[k c] items IH]; intros checks tr tr' r H.
  - simpl in H. injection H as _ <-. reflexivity.
  - cbn [build_checks] in H. cbn [forallb]. unfold passes at 1 3. simpl fst.
    change (is_set a (k, c)) with (negb (is_None (arg_value a k))).
    destruct (is_None (arg_value a k)) eqn:E; cbn [negb orb andb].
    + eapply IH, H.
    + destruct (unpackable a k && accepted a (k, c)) eqn:P.
      * apply andb_true_iff in P as [U A]. unfold bind in H.
        rewrite construct_ok in H by assumption. simpl. eapply IH, H.
      * destruct (construct_fails a k c tr E P) as (tr1 & e & R & X).
        unfold bind in H. rewrite R in H. injection H as _ <-.
        simpl. auto.
Qed.

Lemma Field_unknown reg a key (tr : trace) :
  first_unknown (_check_dispatch reg) (dict_keys (Kw.kwargs a)) = Some key ->
  Field reg a tr = (tr, Raise (SchemaInitError (not_available key))).
Proof.
  intros H. unfold Field, bind. rewrite validate_kwargs_run, H. reflexivity.
Qed.

Lemma Field_ok reg a (tr : trace) :
  first_unknown (_check_dispatch reg) (dict_keys (Kw.kwargs a)) = None ->
  forallb (passes a) (_check_dispatch reg) = true ->
  Field reg a tr
  = (tr ++ map (check_of a) (filter (is_set a) (_check_dispatch reg)),
     Ok (descriptor a
           (or_None (map (check_of a) (filter (is_set a) (_check_dispatch reg)))))).
Proof.
  intros H U. unfold Field, bind.
  rewrite validate_kwargs_run, H, build_checks_ok by assumption.
  reflexivity.
Qed.

Lemma Field_Ok_inv reg a (tr tr' : trace) fi :
  Field reg a tr = (tr', Ok fi) ->
  first_unknown (_check_dispatch reg) (dict_keys (Kw.kwargs a)) = None
  /\ forallb (passes a) (_check_dispatch reg) = true.
Proof.
  unfold Field, bind. rewrite validate_kwargs_run.
  destruct (first_unknown _ _); [discriminate|].
  destruct (build_checks a (_check_dispatch reg) [] tr) as [tr1 [cs|e]] eqn:B;
    [|discriminate].
  intros _. split; [reflexivity|]. exact (build_checks_inv _ _ _ _ _ _ B).
Qed.

(** After validation, [Field] raises what the second loop raises. *)
Lemma Field_fails reg a (tr : trace) :
  first_unknown (_check_dispatch reg) (dict_keys (Kw.kwargs a)) = None ->
  forallb (passes a) (_check_dispatch reg) = false ->
  exists e, snd (Field reg a tr) = Raise e /\ raised_by_construction e.
Proof.
  intros F P. unfold Field, bind. rewrite validate_kwargs_run, F.
  destruct (build_checks a (_check_dispatch reg) [] tr) as [tr1 [cs|e]] eqn:B.
  - pose proof (build_checks_inv _ _ _ _ _ _ B) as H. simpl in H. congruence.
  - destruct (build_checks_inv _ _ _ _ _ _ B) as [_ X]. exists e. auto.
Qed.

(** ** The dispatch table *)

Lemma dispatch_mem reg k :
  dict_mem k (_check_dispatch reg) = dict_mem k fixed_dispatch || dict_mem k reg.
Proof. apply dict_mem_update. Qed.

Lemma dispatch_get reg k :
  dict_wf reg = true ->
  dict_get (_check_dispatch reg) k
  = match dict_get reg k with
    | Some c => Some c
    | None => dict_get fixed_dispatch k
    end.
Proof. apply dict_get_update. Qed.

Lemma dispatch_keys reg :
  dict_keys (_check_dispatch reg) = fixed_keywords ++ new_keys fixed_keywords reg.
Proof. apply dict_keys_update. Qed.

Lemma dispatch_wf reg : dict_wf (_check_dispatch reg) = true.
Proof. apply dict_wf_update. reflexivity. Qed.

Lemma filter_is_set_none a k items :
  only_set a k items = true -> dict_mem k items = false ->
  filter (is_set a) items = [].
Proof.
  unfold only_set.
  induction items as [|[k' c'] items IH]; simpl; [reflexivity|].
  rewrite dict_mem_cons. intros H M.
  apply andb_true_iff in H as [Hk H]. apply orb_false_iff in M as [M1 M2].
  rewrite String.eqb_sym, M1 in Hk. simpl in Hk.
  unfold is_set at 1; simpl fst. rewrite Hk. simpl. auto.
Qed.

Lemma filter_is_set_single a k ctor items :
  dict_wf items = true ->
  dict_get items k = Some ctor ->
  is_None (arg_value a k) = false ->
  only_set a k items = true ->
  filter (is_set a) items = [(k, ctor)].
Proof.
  unfold only_set.
  induction items as [|[k' c'] items IH]; simpl; [discriminate|].
  intros Hwf G V H.
  apply andb_true_iff in Hwf as [Hk' Hwf]. apply negb_true_iff in Hk'.
  apply andb_true_iff in H as [Hk H].
  unfold is_set at 1; simpl fst.
  destruct (String.eqb k k') eqn:E.
  - apply String.eqb_eq in E; subst k'. injection G as ->.
    rewrite V. simpl. f_equal.
    apply (filter_is_set_none a k); assumption.
  - rewrite String.eqb_sym, E in Hk. simpl in Hk. rewrite Hk. simpl. auto.
Qed.


Lemma only_set_passes a k c items :
  only_set a k items = true ->
  unpackable a k = true ->
  accepted a (k, c) = true ->
  dict_wf items = true ->
  dict_get items k = Some c ->
  forallb (passes a) items = true.
Proof.
  unfold only_set. intros H U A W G. apply forallb_forall.
  intros [k' c'] Hin. rewrite forallb_forall in H.
  assert (Hk : In k' (dict_keys items)) by (apply (in_map fst) in Hin; exact Hin).
  specialize (H k' Hk). unfold passes. simpl fst.
  apply orb_true_iff in H as [H|H].
  - apply String.eqb_eq in H. subst k'.
    apply In_dict_get in Hin; [|assumption].
    assert (c' = c) by congruence. subst c'.
    rewrite U, A. apply orb_true_r.
  - unfold is_set. simpl fst. rewrite H. reflexivity.
Qed.

(** A call in which [k] alone is set, to a value that can be passed on and
    that the library accepts, constructs the one check of [k]. *)
Lemma Field_single reg a k ctor (tr : trace) :
  dict_get (_check_dispatch reg) k = Some ctor ->
  is_None (arg_value a k) = false ->
  unpackable a k = true ->
  accepted a (k, ctor) = true ->
  only_set a k (_check_dispatch reg) = true ->
  first_unknown (_check_dispatch reg) (dict_keys (Kw.kwargs a)) = None ->
  Field reg a tr
  = (tr ++ [check_of a (k, ctor)],
     Ok (descriptor a (Some [check_of a (k, ctor)]))).
Proof.
  intros G V U A O F.
  rewrite Field_ok;
    [| assumption | apply (only_set_passes a k ctor); auto using dispatch_wf].
  rewrite (filter_is_set_single a k ctor) by auto using dispatch_wf.
  reflexivity.
Qed.

Lemma check_of_scalar a k ctor :
  is_dict (arg_value a k) = false ->
  check_of a (k, ctor) = mkCheck ctor [arg_value a k] (check_kwargs a).
Proof.
  unfold check_of; simpl. destruct (arg_value a k); simpl; congruence.
Qed.

Lemma unpackable_scalar a k : is_dict (arg_value a k) = false -> unpackable a k = true.
Proof.
  unfold unpackable. destruct (arg_value a k); simpl; congruence.
Qed.

Lemma Field_checks_In reg a (tr tr' : trace) fi k ctor :
  Field reg a tr = (tr', Ok fi) ->
  dict_get (_check_dispatch reg) k = Some ctor ->
  is_None (arg_value a k) = false ->
  exists cs, FieldInfo.checks fi = Some cs /\ In (check_of a (k, ctor)) cs.
Proof.
  intros R G V. destruct (Field_Ok_inv reg a tr tr' fi R) as [F U].
  rewrite (Field_ok reg a tr F U) in R. injection R as _ <-.
  assert (I : In (check_of a (k, ctor))
                (map (check_of a) (filter (is_set a) (_check_dispatch reg)))).
  { apply in_map, filter_In. split; [apply dict_get_In, G|].
    unfold is_set; simpl. rewrite V. reflexivity. }
  exists (map (check_of a) (filter (is_set a) (_check_dispatch reg))).
  split; [|exact I]. simpl. destruct (map _ _); [contradiction | reflexivity].
Qed.

Lemma build_checks_unset a items : forall checks (tr : trace),
  forallb (fun item => is_None (arg_value a (fst item))) items = true ->
  build_checks a items checks tr = (tr, Ok checks).
Proof.
  induction items as [|[k c] items IH]; intros checks tr H; simpl in *.
  - reflexivity.
  - apply andb_true_iff in H as [Hk H]. rewrite Hk. apply IH, H.
Qed.



Lemma build_checks_trace a items : forall checks (tr : trace),
  exists rest, fst (build_checks a items checks tr) = tr ++ rest.
Proof.
  induction items as [|[k c] items IH]; intros checks tr; cbn [build_checks].
  - exists []. simpl. rewrite app_nil_r. reflexivity.
  - destruct (is_None (arg_value a k)); [apply IH|].
    unfold bind. rewrite construct_run.
    destruct (arg_value a k);
      try (destruct (Check_library c _ (check_kwargs a));
           [ eexists; reflexivity
           | destruct (IH (checks ++ [check_of a (k, c)])
                          (tr ++ [check_of a (k, c)])) as (rest & ->);
             eexists; rewrite <- app_assoc; reflexivity ]).
    destruct (first_duplicate entries (check_kwargs a));
      [exists []; simpl; rewrite app_nil_r; reflexivity|].
    destruct (keywords entries);
      [|exists []; simpl; rewrite app_nil_r; reflexivity].
    destruct (Check_library c [] _).
    + eexists. reflexivity.
    + destruct (IH (checks ++ [check_of a (k, c)])
                   (tr ++ [check_of a (k, c)])) as (rest & ->).
      eexists. rewrite <- app_assoc. reflexivity.
Qed.

(** ** Unknown keywords *)

(** C1. A call of [Field] with an extra keyword that is neither one of the
    fixed constraint keywords nor a key of the custom-check registry raises
    [SchemaInitError].  The message names the first such keyword in the order
    of the call: the keywords before it are all known, and the given keyword
    is that one or comes after it (it is that one when no other is unknown).
    The trace of constructor calls is left as it was, so no constructor has
    been invoked, and no descriptor is returned. *)
Theorem C1_unknown_keyword_raises reg a key :
  In key (dict_keys (Kw.kwargs a)) ->
  dict_mem key fixed_dispatch = false ->
  dict_mem key reg = false ->
  exists pre bad post,
    dict_keys (Kw.kwargs a) = pre ++ bad :: post
    /\ forallb (fun k => dict_mem k fixed_dispatch || dict_mem k reg) pre = true
    /\ dict_mem bad fixed_dispatch = false
    /\ dict_mem bad reg = false
    /\ (bad = key \/ In key post)
    /\ ((forall k, In k (dict_keys (Kw.kwargs a)) ->
                   dict_mem k fixed_dispatch = false ->
                   dict_mem k reg = false -> k = key) ->
        bad = key)
    /\ (forall tr : trace,
          Field reg a tr
          = (tr, Raise (SchemaInitError
                   ("custom check '" ++ bad
                    ++ "' is not available. Make sure you use "
                    ++ "pandera.extensions.register_check_method decorator to "
                    ++ "register your custom check method.")%string))).
Proof.
  intros Hin Hfixed Hreg.
  destruct (first_unknown (_check_dispatch reg) (dict_keys (Kw.kwargs a)))
    as [bad|] eqn:F.
  - pose proof F as F'. unfold first_unknown in F'.
    apply find_split in F' as (pre & post & E & P & Hunk).
    apply negb_true_iff in Hunk. rewrite dispatch_mem in Hunk.
    apply orb_false_iff in Hunk as [Hb1 Hb2].
    assert (Pre : forallb (fun k => dict_mem k fixed_dispatch || dict_mem k reg)
                    pre = true).
    { apply forallb_forall. intros k Hk. rewrite forallb_forall in P.
      specialize (P k Hk). apply negb_true_iff, negb_false_iff in P.
      rewrite dispatch_mem in P. exact P. }
    exists pre, bad, post. repeat split; auto.
    + rewrite E in Hin. apply in_app_or in Hin as [Hin|[Hin|Hin]]; auto.
      rewrite forallb_forall in Pre. specialize (Pre key Hin).
      rewrite Hfixed, Hreg in Pre. discriminate.
    + intros U. apply U; auto. rewrite E. apply in_or_app. right. left.
      reflexivity.
    + intros tr. apply Field_unknown, F.
  - unfold first_unknown in F.
    pose proof (find_none _ _ F key Hin) as Hk. cbv beta in Hk.
    rewrite dispatch_mem, Hfixed, Hreg in Hk. discriminate.
Qed.

(** ** Keywords that are set, and keywords that are not *)

(** C5. When the value [Field] reads is [None] for every keyword of the
    dispatch table -- the fixed keywords and every registered name, those that
    are also names of locals of [Field] included -- no constructor is invoked:
    the trace stays as it was.  When moreover every extra keyword is a keyword
    of the table, [Field] returns [FieldInfo(checks=None, ...)]: the [checks]
    argument it passes is [None], not an empty list, and the other arguments
    are its own parameters. *)
Theorem C5_nothing_set_checks_None reg a :
  forallb (fun k => is_None (arg_value a k)) (dict_keys (_check_dispatch reg))
  = true ->
  forall tr : trace,
    fst (Field reg a tr) = tr
    /\ (forallb (fun key => dict_mem key (_check_dispatch reg))
          (dict_keys (Kw.kwargs a)) = true ->
        Field reg a tr
        = (tr, Ok (FieldInfo.mk None (Kw.nullable a) (Kw.unique a) (Kw.coerce a)
                     (Kw.regex a) (Kw.check_name a) (Kw.alias a) (Kw.title a)
                     (Kw.description a) (Kw.default a) (Kw.dtype_kwargs a)
                     (Kw.metadata a) (Kw.return_expresion a) PyNone))).
Proof.
  intros H tr.
  assert (U : forallb (fun item => is_None (arg_value a (fst item)))
                (_check_dispatch reg) = true).
  { apply forallb_forall. intros [k c] Hin. rewrite forallb_forall in H.
    apply H. apply (in_map fst) in Hin. exact Hin. }
  unfold Field, bind. rewrite validate_kwargs_run.
  destruct (first_unknown (_check_dispatch reg) (dict_keys (Kw.kwargs a)))
    as [bad|] eqn:F.
  - split; [reflexivity|]. intros K.
    apply forallb_first_unknown in K. congruence.
  - rewrite build_checks_unset by assumption. split; reflexivity.
Qed.


(** ** Mappings *)

(** C4. Take a fixed constraint keyword [k] whose value is a mapping, in a
    call whose extra keywords are all keywords of the dispatch table and in
    which the second loop gets as far as [k]: [earlier] below are the
    constructor calls it has made by then.  Then
    - when the mapping has a key named [ignore_na], [raise_warning] or
      [n_failure_cases], [Field] raises the [TypeError] of a keyword given
      twice, naming the first of the three that the mapping has, and the
      constructor of [k] is not entered;
    - otherwise, when the mapping has a key that is not a string, [Field]
      raises the [TypeError] "keywords must be strings", and the constructor
      of [k] is not entered;
    - otherwise the constructor the table holds for [k] is invoked with no
      positional argument and with the entries of the mapping, followed by
      the caller's [ignore_na], [raise_warning] and [n_failure_cases], as
      named arguments, and a descriptor that is returned holds that check. *)
Theorem C4_mapping_keyword reg a pre k ctor post entries (tr : trace) :
  In k fixed_keywords ->
  _check_dispatch reg = pre ++ (k, ctor) :: post ->
  forallb (fun key => dict_mem key (_check_dispatch reg))
    (dict_keys (Kw.kwargs a)) = true ->
  forallb (passes a) pre = true ->
  arg_value a k = PyDict entries ->
  let earlier := map (check_of a) (filter (is_set a) pre) in
  match find (fun key => has_key entries key)
          ["ignore_na"; "raise_warning"; "n_failure_cases"],
        keywords entries with
  | Some dup, _ =>
      Field reg a tr = (tr ++ earlier, Raise (TypeError_multiple_values ctor dup))
  | None, None =>
      Field reg a tr = (tr ++ earlier, Raise TypeError_keywords_must_be_strings)
  | None, Some named =>
      (exists rest,
          fst (Field reg a tr)
          = tr ++ earlier
            ++ mkCheck ctor []
                 (named
                  ++ [ ("ignore_na", PyBool (Kw.ignore_na a));
                       ("raise_warning", PyBool (Kw.raise_warning a));
                       ("n_failure_cases", Kw.n_failure_cases a) ])
               :: rest)
      /\ (forall fi,
             snd (Field reg a tr) = Ok fi ->
             exists cs,
               FieldInfo.checks fi = Some cs
               /\ In (mkCheck ctor []
                        (named
                         ++ [ ("ignore_na", PyBool (Kw.ignore_na a));
                              ("raise_warning", PyBool (Kw.raise_warning a));
                              ("n_failure_cases", Kw.n_failure_cases a) ]))
                     cs)
  end
  /\ (dict_mem k reg = false -> dict_get fixed_dispatch k = Some ctor).
Proof.
  intros _ E K P V earlier.
  assert (G : dict_get (_check_dispatch reg) k = Some ctor).
  { apply In_dict_get; [apply dispatch_wf|]. rewrite E.
    apply in_or_app. right. left. reflexivity. }
  split; [|intros R; rewrite <- G; symmetry; apply dict_get_update_other, R].
  assert (F : Field reg a tr
              = match construct ctor (arg_value a k) (check_kwargs a)
                        (tr ++ earlier) with
                | (tr', Ok check_) =>
                    match build_checks a post (earlier ++ [check_]) tr' with
                    | (tr'', Ok checks) =>
                        (tr'', Ok (descriptor a (or_None checks)))
                    | (tr'', Raise e) => (tr'', Raise e)
                    end
                | (tr', Raise e) => (tr', Raise e)
                end).
  { unfold Field, bind.
    rewrite validate_kwargs_run, (forallb_first_unknown _ _ K), E.
    rewrite build_checks_app by assumption. cbn [build_checks].
    rewrite V. cbn [is_None app]. unfold bind. fold earlier.
    destruct (construct ctor (PyDict entries) (check_kwargs a) (tr ++ earlier))
      as [tr' [c|e]]; reflexivity. }
  rewrite construct_run, V in F. unfold first_duplicate in F.
  change (dict_keys (check_kwargs a))
    with ["ignore_na"; "raise_warning"; "n_failure_cases"] in F.
  destruct (find (fun key => has_key entries key)
              ["ignore_na"; "raise_warning"; "n_failure_cases"]) as [dup|];
    [exact F|].
  destruct (keywords entries) as [named|] eqn:N; [|exact F].
  assert (C : check_of a (k, ctor)
              = mkCheck ctor []
                  (named ++ [ ("ignore_na", PyBool (Kw.ignore_na a));
                              ("raise_warning", PyBool (Kw.raise_warning a));
                              ("n_failure_cases", Kw.n_failure_cases a) ])).
  { unfold check_of; simpl fst; simpl snd. rewrite V, N. reflexivity. }
  rewrite C in F. split.
  - rewrite F.
    destruct (Check_library ctor [] _).
    + exists []. simpl. rewrite <- app_assoc. reflexivity.
    + match goal with
      | |- context [build_checks a post ?cs ?t] =>
          destruct (build_checks_trace a post cs t) as (rest & T);
          destruct (build_checks a post cs t) as [tr'' [checks|e]]
      end; simpl in T; subst tr''; exists rest; simpl;
        rewrite <- !app_assoc; reflexivity.
  - intros fi R.
    destruct (Field reg a tr) as [tr' r] eqn:Fr. simpl in R. subst r.
    destruct (Field_checks_In reg a tr tr' fi k ctor Fr G) as (cs & Hc & I).
    + rewrite V. reflexivity.
    + exists cs. rewrite C in I. auto.
Qed.

(** ** [None] and the other values *)



(** ** Name resolution *)

(** The outcome of [FieldInfo.name] in terms of the attributes it reads. *)
Lemma name_run self :
  FieldInfo.name polars_col self
  = (self,
     if FieldInfo.return_expresion self then
       if FieldInfo.regex self then
         match effective_name self with
         | PyStr s => Ok (Col (PyStr ("^" ++ s ++ "$")%string))
         | v => Raise (TypeError_concat (type_name v))
         end
       else col polars_col (effective_name self)
     else Ok (Val (effective_name self))).
Proof.
  unfold FieldInfo.name, effective_name, bind, FieldInfo.getattr, ret, lift.
  destruct (FieldInfo.return_expresion self); [|reflexivity].
  destruct (FieldInfo.regex self); [|reflexivity].
  destruct (if is_None (FieldInfo.alias self)
            then FieldInfo.original_name self else FieldInfo.alias self);
    reflexivity.
Qed.


(** C7. For a descriptor whose effective name is a string [s], such as "x":
    with expression emission the name is a selector, [col("^" + s +
    "$")] with [regex] and [col(s)] without; without expression emission it is
    the plain string [s], not anchored, with [regex] or without. *)
Theorem C7_regex_anchoring self s :
  effective_name self = PyStr s ->
  snd (FieldInfo.name polars_col self)
  = if FieldInfo.return_expresion self then
      if FieldInfo.regex self then Ok (Col (PyStr ("^" ++ s ++ "$")%string))
      else Ok (Col (PyStr s))
    else Ok (Val (PyStr s)).
Proof.
  intros E. rewrite name_run, E. reflexivity.
Qed.

(** C8. Name resolution leaves the descriptor as it found it, and resolving
    the name again yields the same outcome, a value or an error. *)
Theorem C8_name_is_pure self :
  fst (FieldInfo.name polars_col self) = self
  /\ snd (FieldInfo.name polars_col (fst (FieldInfo.name polars_col self)))
     = snd (FieldInfo.name polars_col self).
Proof.
  assert (H : fst (FieldInfo.name polars_col self) = self)
    by (rewrite name_run; reflexivity).
  split; [exact H | rewrite H; reflexivity].
Qed.

(** ** The order of the checks *)

Lemma dict_get_Permutation {V : Type} (d d' : dict V) k :
  dict_wf d = true -> Permutation d d' -> dict_get d' k = dict_get d k.
Proof.
  intros Hwf P.
  assert (Hwf' : dict_wf d' = true).
  { apply dict_wf_NoDup. apply dict_wf_NoDup in Hwf.
    eapply Permutation_NoDup; [|exact Hwf]. apply Permutation_map, P. }
  destruct (dict_get d k) as [v|] eqn:G.
  - apply In_dict_get; [assumption|].
    eapply Permutation_in; [exact P|]. apply dict_get_In, G.
  - destruct (dict_get d' k) as [v'|] eqn:G'; [|reflexivity].
    apply dict_get_In in G'. apply Permutation_sym in P.
    apply (Permutation_in _ P) in G'.
    apply In_dict_get in G'; [congruence | assumption].
Qed.

(** Supplying the extra keywords in another order changes no value that
    [Field] reads, but for the local [kwargs] itself. *)
Lemma arg_value_with_kwargs a kw' k :
  dict_wf (Kw.kwargs a) = true ->
  Permutation (Kw.kwargs a) kw' ->
  arg_value (Kw.with_kwargs a kw') k = arg_value a k
  \/ (arg_value a k = PyDict (as_entries (Kw.kwargs a))
      /\ arg_value (Kw.with_kwargs a kw') k = PyDict (as_entries kw')).
Proof.
  intros Hwf P.
  unfold arg_value, dict_get_default, locals. cbn [dict_get].
  repeat match goal with
         | |- context [if String.eqb k ?s then _ else _] =>
             destruct (String.eqb k s);
             [ first [ left; reflexivity | right; split; reflexivity ] | ]
         end.
  left. cbn [Kw.kwargs Kw.with_kwargs].
  rewrite (dict_get_Permutation _ _ k Hwf P). reflexivity.
Qed.

Lemma first_duplicate_Permutation (d d' extra : dict pyval) :
  Permutation d d' ->
  first_duplicate (as_entries d') extra = first_duplicate (as_entries d) extra.
Proof.
  intros P. unfold first_duplicate.
  induction (dict_keys extra) as [|k keys IH]; simpl; [reflexivity|].
  rewrite !has_key_as_entries, (dict_mem_Permutation _ _ k P).
  destruct (dict_mem k d); [reflexivity | exact IH].
Qed.

Section Reordered.
Variables (a : Kw.t) (kw' : dict pyval).
Hypothesis Hwf : dict_wf (Kw.kwargs a) = true.
Hypothesis Hperm : Permutation (Kw.kwargs a) kw'.
Hypothesis Horder :
  forall f args named named',
    Permutation named named' ->
    Check_library f args named = Check_library f args named'.

Lemma is_set_with_kwargs item : is_set (Kw.with_kwargs a kw') item = is_set a item.
Proof.
  unfold is_set.
  destruct (arg_value_with_kwargs a kw' (fst item) Hwf Hperm) as [E|[E E']].
  - rewrite E. reflexivity.
  - rewrite E, E'. reflexivity.
Qed.

Lemma unpackable_with_kwargs k : unpackable (Kw.with_kwargs a kw') k = unpackable a k.
Proof.
  unfold unpackable.
  destruct (arg_value_with_kwargs a kw' k Hwf Hperm) as [E|[E E']].
  - rewrite E. reflexivity.
  - rewrite E, E'.
    change (check_kwargs (Kw.with_kwargs a kw')) with (check_kwargs a).
    rewrite (first_duplicate_Permutation _ _ _ Hperm), !keywords_as_entries.
    reflexivity.
Qed.

Lemma check_of_with_kwargs item :
  same_call (check_of a item) (check_of (Kw.with_kwargs a kw') item).
Proof.
  unfold check_of.
  change (check_kwargs (Kw.with_kwargs a kw')) with (check_kwargs a).
  destruct (arg_value_with_kwargs a kw' (fst item) Hwf Hperm) as [E|[E E']].
  - rewrite E. repeat split. reflexivity.
  - rewrite E, E', !keywords_as_entries. repeat split. simpl.
    apply Permutation_app_tail, Hperm.
Qed.

Lemma accepted_with_kwargs item :
  accepted (Kw.with_kwargs a kw') item = accepted a item.
Proof.
  unfold accepted.
  destruct (check_of_with_kwargs item) as (F & A & N).
  rewrite <- F, <- A, (Horder _ _ _ _ N). reflexivity.
Qed.

Lemma passes_with_kwargs item : passes (Kw.with_kwargs a kw') item = passes a item.
Proof.
  unfold passes.
  rewrite is_set_with_kwargs, unpackable_with_kwargs, accepted_with_kwargs.
  reflexivity.
Qed.

Lemma first_unknown_with_kwargs (check_dispatch : dict constructor) :
  first_unknown check_dispatch (dict_keys (Kw.kwargs a)) = None ->
  first_unknown check_dispatch (dict_keys kw') = None.
Proof.
  rewrite !first_unknown_None. intros H key Hin. apply H.
  eapply Permutation_in; [|exact Hin].
  apply Permutation_sym, Permutation_map, Hperm.
Qed.
End Reordered.

Lemma Forall2_map_pointwise {A B : Type} (R : B -> B -> Prop) (f g : A -> B) l :
  (forall x, R (f x) (g x)) -> Forall2 R (map f l) (map g l).
Proof.
  intros H. induction l; simpl; constructor; auto.
Qed.

(** C2. The dispatch table lists the sixteen fixed keywords in the order of
    their declaration, then the custom checks.  When [Field] returns, the
    checks of the descriptor are the constructor calls it made, one for each
    keyword of the table that is set, in the order of the table.  The order in
    which the caller wrote the keywords that are parameters of [Field] is not
    seen by [Field] at all; the order of the extra keywords it receives in
    [kwargs] does not matter either: with the same extra keywords in any other
    order, and a check library that does not look at the order in which named
    arguments are written, [Field] returns as well, with a check for the same
    keywords in the same order, each the same call. *)
Theorem C2_checks_in_table_order reg a kw' tr fi :
  dict_wf (Kw.kwargs a) = true ->
  Permutation (Kw.kwargs a) kw' ->
  run (Field reg a) = (tr, Ok fi) ->
  dict_keys (_check_dispatch reg)
  = ["eq"; "ne"; "gt"; "ge"; "lt"; "le"; "in_range"; "between"; "isin";
     "notin"; "str_contains"; "str_endswith"; "str_matches"; "str_length";
     "str_startswith"; "unique_values_eq"] ++ new_keys fixed_keywords reg
  /\ FieldInfo.checks fi = or_None tr
  /\ tr = map (check_of a) (filter (is_set a) (_check_dispatch reg))
  /\ ((forall f args named named',
          Permutation named named' ->
          Check_library f args named = Check_library f args named') ->
      exists tr' fi',
        run (Field reg (Kw.with_kwargs a kw')) = (tr', Ok fi')
        /\ FieldInfo.checks fi' = or_None tr'
        /\ tr' = map (check_of (Kw.with_kwargs a kw'))
                   (filter (is_set a) (_check_dispatch reg))
        /\ Forall2 same_call tr tr').
Proof.
  intros Hwf P R. unfold run in *.
  destruct (Field_Ok_inv reg a [] tr fi R) as [F U].
  rewrite (Field_ok reg a [] F U) in R. simpl in R.
  injection R as <- <-.
  split; [apply dispatch_keys|]. split; [reflexivity|]. split; [reflexivity|].
  intros Ho.
  assert (F' : first_unknown (_check_dispatch reg)
                 (dict_keys (Kw.kwargs (Kw.with_kwargs a kw'))) = None).
  { apply (first_unknown_with_kwargs a kw' P), F. }
  assert (U' : forallb (passes (Kw.with_kwargs a kw')) (_check_dispatch reg)
               = true).
  { apply forallb_forall. intros item Hin.
    rewrite passes_with_kwargs by assumption.
    rewrite forallb_forall in U. apply U, Hin. }
  rewrite (Field_ok reg (Kw.with_kwargs a kw') [] F' U'). simpl.
  rewrite (filter_ext _ _ (is_set_with_kwargs a kw' Hwf P)).
  eexists _, _. split; [reflexivity|]. split; [reflexivity|].
  split; [reflexivity|].
  apply Forall2_map_pointwise. intros item.
  apply check_of_with_kwargs; assumption.
Qed.

(** ** The registry is read at every call *)

(** C9. [Field] builds its dispatch table from the registry as it is when
    [Field] is called.  After a custom check has been registered under [name]
    -- whatever the registry held before -- the table is the fixed table
    extended with, and overridden by, the registry's contents, and it holds
    the registered constructor for [name]; a call [Field(name=v)] that raised
    [SchemaInitError] before the registration does not raise it after; and
    when [name] is not the name of a local variable of [Field], [v] is neither
    [None] nor a mapping, nothing else is set and the registered constructor
    accepts the call, that call returns the one check made by it. *)
Theorem C9_dispatch_reads_registry reg name ctor :
  dict_wf reg = true ->
  (forall k,
      dict_get (_check_dispatch (dict_set reg name ctor)) k
      = match dict_get (dict_set reg name ctor) k with
        | Some c => Some c
        | None => dict_get fixed_dispatch k
        end)
  /\ dict_get (_check_dispatch (dict_set reg name ctor)) name = Some ctor
  /\ (forall a v (tr : trace),
         Kw.kwargs a = [(name, v)] ->
         (dict_mem name (_check_dispatch reg) = false ->
          Field reg a tr = (tr, Raise (SchemaInitError (not_available name))))
         /\ (forall msg,
                snd (Field (dict_set reg name ctor) a tr)
                <> Raise (SchemaInitError msg)))
  /\ (forall a v,
         Kw.kwargs a = [(name, v)] ->
         dict_mem name (locals a) = false ->
         is_None v = false ->
         is_dict v = false ->
         only_set a name (_check_dispatch (dict_set reg name ctor)) = true ->
         Check_library ctor [v] (check_kwargs a) = None ->
         run (Field (dict_set reg name ctor) a)
         = ([mkCheck ctor [v] (check_kwargs a)],
            Ok (descriptor a (Some [mkCheck ctor [v] (check_kwargs a)])))).
Proof.
  intros Hwf.
  assert (Hwf' : dict_wf (dict_set reg name ctor) = true)
    by apply dict_wf_set, Hwf.
  assert (G : dict_get (_check_dispatch (dict_set reg name ctor)) name = Some ctor).
  { rewrite dispatch_get by assumption. rewrite dict_get_set_same. reflexivity. }
  assert (F : forall a v, Kw.kwargs a = [(name, v)] ->
              first_unknown (_check_dispatch (dict_set reg name ctor))
                (dict_keys (Kw.kwargs a)) = None).
  { intros a v K. rewrite K. apply first_unknown_None.
    intros key [<-|[]]. eapply dict_get_mem, G. }
  split; [intros k; apply dispatch_get, Hwf'|].
  split; [exact G|]. split.
  - intros a v tr K. split.
    + intros N. apply Field_unknown. rewrite K. unfold first_unknown. simpl.
      rewrite N. reflexivity.
    + intros msg.
      destruct (forallb (passes a) (_check_dispatch (dict_set reg name ctor)))
        eqn:P.
      * rewrite (Field_ok _ a tr (F a v K) P). discriminate.
      * destruct (Field_fails _ a tr (F a v K) P) as (e & -> & X).
        intros [= ->].
        destruct X as [(c & k & X)|[X|(d & X)]]; discriminate.
  - intros a v K L V D O A.
    assert (Av : arg_value a name = v).
    { unfold arg_value, dict_get_default.
      apply dict_get_None in L. rewrite L, K. simpl.
      rewrite String.eqb_refl. reflexivity. }
    unfold run.
    rewrite (Field_single _ a name ctor []); auto.
    + rewrite check_of_scalar by (rewrite Av; exact D). rewrite Av. reflexivity.
    + rewrite Av. exact V.
    + apply unpackable_scalar. rewrite Av. exact D.
    + unfold accepted. rewrite check_of_scalar by (rewrite Av; exact D).
      simpl. rewrite Av, A. reflexivity.
    + eapply F, K.
Qed.

(** * Further properties of [Field], [_check_dispatch] and [FieldInfo.name] *)

(** ** The outcomes of [Field] *)



(** X2. A mapping that has a key of [check_kwargs] makes [Field] raise in the
    middle of its second loop.  The keywords that precede it in the dispatch
    table and are set have had their constructors invoked already, those that
    follow never are, and the [TypeError] names the callable and the first key
    of [check_kwargs] (in the order [ignore_na], [raise_warning],
    [n_failure_cases]) that the mapping has. *)
Theorem X2_clash_after_earlier_checks reg a pre k c post entries dup (tr : trace) :
  _check_dispatch reg = pre ++ (k, c) :: post ->
  forallb (fun key => dict_mem key (_check_dispatch reg))
    (dict_keys (Kw.kwargs a)) = true ->
  forallb (passes a) pre = true ->
  arg_value a k = PyDict entries ->
  find (fun key => has_key entries key)
    ["ignore_na"; "raise_warning"; "n_failure_cases"] = Some dup ->
  Field reg a tr
  = (tr ++ map (check_of a) (filter (is_set a) pre),
     Raise (TypeError_multiple_values c dup)).
Proof.
  intros E K U A D. unfold Field, bind.
  rewrite validate_kwargs_run, (forallb_first_unknown _ _ K), E.
  rewrite build_checks_app by assumption.
  cbn [build_checks]. rewrite A. cbn [is_None].
  unfold bind, construct, call, first_duplicate.
  change (dict_keys (check_kwargs a))
    with ["ignore_na"; "raise_warning"; "n_failure_cases"].
  rewrite D. reflexivity.
Qed.

(** X3. When several extra keywords are unknown, the [SchemaInitError] names
    the first of them in the order in which the call gave them: an unknown
    keyword preceded by known ones only is the one reported, whatever comes
    after it. *)
Theorem X3_first_unknown_keyword_is_named reg a pre key post (tr : trace) :
  dict_keys (Kw.kwargs a) = pre ++ key :: post ->
  forallb (fun k => dict_mem k (_check_dispatch reg)) pre = true ->
  dict_mem key (_check_dispatch reg) = false ->
  Field reg a tr
  = (tr, Raise (SchemaInitError
           ("custom check '" ++ key
            ++ "' is not available. Make sure you use "
            ++ "pandera.extensions.register_check_method decorator to "
            ++ "register your custom check method.")%string)).
Proof.
  intros E P K. apply Field_unknown. rewrite E. unfold first_unknown.
  apply find_app_first.
  - rewrite forallb_forall in *. intros y Hy. rewrite (P y Hy). reflexivity.
  - rewrite K. reflexivity.
Qed.

(** ** The checks of a descriptor *)

Lemma new_keys_length {V : Type} (extra : dict V) : forall seen,
  List.length (new_keys seen extra) <= List.length extra.
Proof.
  induction extra as [|[k v] extra IH]; intros seen; simpl; [auto|].
  destruct (existsb (String.eqb k) seen); simpl.
  - apply le_S, IH.
  - apply le_n_S, IH.
Qed.

Lemma dispatch_length reg : List.length (_check_dispatch reg) <= 16 + List.length reg.
Proof.
  rewrite <- (length_map fst (_check_dispatch reg)).
  change (map fst (_check_dispatch reg)) with (dict_keys (_check_dispatch reg)).
  rewrite dispatch_keys, length_app.
  change (List.length fixed_keywords) with 16.
  apply PeanoNat.Nat.add_le_mono_l, new_keys_length.
Qed.

(** X4. When [Field] returns, the [checks] argument of the call
    [FieldInfo(checks=..., ...)] it returns holds exactly the checks of the
    constructor calls it made, in the order it made them: none is dropped and
    none is added.  The argument is [None] when it made none, and otherwise
    that list, so never an empty list; the other arguments are the parameters
    of [Field].  There is one call for each keyword of the dispatch table
    whose value is not [None], hence never more than sixteen plus the number
    of registered custom checks. *)
Theorem X4_checks_are_the_calls reg a (tr tr' : trace) fi :
  Field reg a tr = (tr', Ok fi) ->
  exists cs,
    tr' = tr ++ cs
    /\ fi = FieldInfo.mk (match cs with [] => None | _ :: _ => Some cs end)
              (Kw.nullable a) (Kw.unique a) (Kw.coerce a) (Kw.regex a)
              (Kw.check_name a) (Kw.alias a) (Kw.title a) (Kw.description a)
              (Kw.default a) (Kw.dtype_kwargs a) (Kw.metadata a)
              (Kw.return_expresion a) PyNone
    /\ List.length cs
       = List.length (filter (fun item => negb (is_None (arg_value a (fst item))))
                   (_check_dispatch reg))
    /\ List.length cs <= 16 + List.length reg.
Proof.
  intros R. destruct (Field_Ok_inv reg a tr tr' fi R) as [F U].
  rewrite (Field_ok reg a tr F U) in R. injection R as <- <-.
  exists (map (check_of a) (filter (is_set a) (_check_dispatch reg))).
  split; [reflexivity|]. split; [reflexivity|].
  rewrite length_map. split; [reflexivity|].
  eapply PeanoNat.Nat.le_trans; [apply filter_length_le | apply dispatch_length].
Qed.

(** X5. Every check of a returned descriptor was built by a constructor of the
    dispatch table from the value, not [None], of that constructor's keyword:
    a mapping was unpacked into named arguments and nothing passed
    positionally, any other value was passed as the one positional argument;
    in both cases [ignore_na], [raise_warning] and [n_failure_cases] are the
    last three named arguments. *)
Theorem X5_shape_of_every_check reg a (tr tr' : trace) fi cs c :
  Field reg a tr = (tr', Ok fi) ->
  FieldInfo.checks fi = Some cs ->
  In c cs ->
  exists k,
    In (k, check_fn c) (_check_dispatch reg)
    /\ arg_value a k <> PyNone
    /\ match arg_value a k with
       | PyDict entries =>
           check_args c = []
           /\ exists named,
                keywords entries = Some named
                /\ check_named c
                   = named
                     ++ [ ("ignore_na", PyBool (Kw.ignore_na a));
                          ("raise_warning", PyBool (Kw.raise_warning a));
                          ("n_failure_cases", Kw.n_failure_cases a) ]
       | v =>
           check_args c = [v]
           /\ check_named c
              = [ ("ignore_na", PyBool (Kw.ignore_na a));
                  ("raise_warning", PyBool (Kw.raise_warning a));
                  ("n_failure_cases", Kw.n_failure_cases a) ]
       end.
Proof.
  intros R C I. destruct (Field_Ok_inv reg a tr tr' fi R) as [F U].
  rewrite (Field_ok reg a tr F U) in R. injection R as _ <-.
  simpl in C.
  remember (map (check_of a) (filter (is_set a) (_check_dispatch reg))) as l eqn:E.
  destruct l as [|c0 l]; simpl in C; [discriminate|]. injection C as <-.
  rewrite E in I. apply in_map_iff in I as ([k ctor] & <- & I).
  apply filter_In in I as [I S]. unfold is_set in S; simpl in S.
  rewrite forallb_forall in U. specialize (U (k, ctor) I).
  unfold passes, is_set in U. simpl fst in U. rewrite S in U. simpl in U.
  apply andb_true_iff in U as [U _]. unfold unpackable in U.
  exists k. unfold check_of; simpl fst; simpl snd.
  destruct (arg_value a k); try discriminate;
    try (split; [exact I | split; [discriminate | split; reflexivity]]).
  destruct (first_duplicate entries (check_kwargs a)); [discriminate|].
  destruct (keywords entries) as [named|]; [|discriminate].
  split; [exact I|]. split; [discriminate|]. split; [reflexivity|].
  exists named. split; reflexivity.
Qed.

(** ** The dispatch table, whatever is registered *)

(** X6. Whatever the registry holds, the keys of the dispatch table are
    distinct, they begin with the sixteen built-in keywords in the order of the
    dictionary display, and they are the built-in keywords and the registered
    names and nothing else.  So a built-in keyword is never unknown, and
    registering a check makes no known keyword unknown. *)
Theorem X6_dispatch_table_keys reg :
  NoDup (dict_keys (_check_dispatch reg))
  /\ firstn 16 (dict_keys (_check_dispatch reg))
     = ["eq"; "ne"; "gt"; "ge"; "lt"; "le"; "in_range"; "between"; "isin";
        "notin"; "str_contains"; "str_endswith"; "str_matches"; "str_length";
        "str_startswith"; "unique_values_eq"]
  /\ (forall k,
         In k (dict_keys (_check_dispatch reg))
         <-> In k ["eq"; "ne"; "gt"; "ge"; "lt"; "le"; "in_range"; "between";
                   "isin"; "notin"; "str_contains"; "str_endswith";
                   "str_matches"; "str_length"; "str_startswith";
                   "unique_values_eq"]
             \/ In k (dict_keys reg)).
Proof.
  split; [apply dict_wf_NoDup, dispatch_wf|]. split.
  - rewrite dispatch_keys. reflexivity.
  - intros k. rewrite <- !dict_mem_In, dispatch_mem, orb_true_iff.
    rewrite (dict_mem_In _ k fixed_dispatch). reflexivity.
Qed.

(** X7. The registry is unpacked after the built-in entries of the dictionary
    display, so a custom check registered under the name of a built-in
    keyword takes the place of the built-in constructor: the table holds the
    registered callable for that keyword, and a descriptor compiled with the
    keyword set to a value that is not a mapping holds the check built by the
    registered callable. *)
Theorem X7_registered_name_replaces_builtin reg k builtin custom :
  dict_wf reg = true ->
  dict_get fixed_dispatch k = Some builtin ->
  dict_get reg k = Some custom ->
  dict_get (_check_dispatch reg) k = Some custom
  /\ forall a (tr tr' : trace) fi,
       Field reg a tr = (tr', Ok fi) ->
       is_None (arg_value a k) = false ->
       is_dict (arg_value a k) = false ->
       exists cs,
         FieldInfo.checks fi = Some cs
         /\ In (mkCheck custom [arg_value a k] (check_kwargs a)) cs.
Proof.
  intros Hwf _ G.
  assert (T : dict_get (_check_dispatch reg) k = Some custom).
  { rewrite dispatch_get by assumption. rewrite G. reflexivity. }
  split; [exact T|].
  intros a tr tr' fi R V D.
  destruct (Field_checks_In reg a tr tr' fi k custom R T V) as (cs & C & I).
  exists cs. split; [exact C|].
  rewrite check_of_scalar in I by assumption. exact I.
Qed.

(** X8. [Field] looks a keyword up in its own local variables first and in
    [kwargs] only when it has no local of that name.  So a keyword of the
    dispatch table that is also the name of a local -- a custom check
    registered as [unique], [alias] or [title], say -- takes the value of the
    local, whatever [kwargs] holds, and when that value is not [None] the
    returned descriptor holds the check built from it.  For the boolean
    parameters, which are never [None], that is every call. *)
Theorem X8_locals_before_kwargs reg a k ctor v (tr tr' : trace) fi :
  dict_get (locals a) k = Some v ->
  is_None v = false ->
  dict_get (_check_dispatch reg) k = Some ctor ->
  Field reg a tr = (tr', Ok fi) ->
  arg_value a k = v
  /\ exists cs,
       FieldInfo.checks fi = Some cs
       /\ match v with
          | PyDict entries =>
              exists named,
                keywords entries = Some named
                /\ In (mkCheck ctor [] (named ++ check_kwargs a)) cs
          | _ => In (mkCheck ctor [v] (check_kwargs a)) cs
          end.
Proof.
  intros L V G R.
  assert (A : arg_value a k = v).
  { unfold arg_value, dict_get_default. rewrite L. reflexivity. }
  split; [exact A|].
  assert (V' : is_None (arg_value a k) = false) by (rewrite A; exact V).
  destruct (Field_checks_In reg a tr tr' fi k ctor R G V') as (cs & C & I).
  exists cs. split; [exact C|].
  destruct (Field_Ok_inv reg a tr tr' fi R) as [_ U].
  rewrite forallb_forall in U.
  specialize (U (k, ctor) (dict_get_In _ _ _ G)).
  unfold passes, is_set in U. simpl fst in U. rewrite V' in U. simpl in U.
  apply andb_true_iff in U as [U _]. unfold unpackable in U.
  unfold check_of in I; simpl fst in I; simpl snd in I. rewrite A in I, U.
  destruct v; try exact I.
  destruct (first_duplicate entries (check_kwargs a)); [discriminate|].
  destruct (keywords entries) as [named|]; [|discriminate].
  exists named. split; [reflexivity | exact I].
Qed.

(** ** Name resolution: errors, composition with [Field], collisions *)

(** X9. Name resolution raises the [TypeError] of a concatenation exactly when
    it is asked for the anchored selector of a name that is not a string --
    expression emission and [regex] both on, and an effective name such as
    [None] (no alias, [original_name] not assigned yet) or a number; the error
    tells the type of that name.  In plain mode it never raises and returns
    the effective name as it is; for an effective name that is a string it
    raises in no mode. *)
Theorem X9_name_raises_only_when_anchoring self :
  ((exists t, snd (FieldInfo.name polars_col self) = Raise (TypeError_concat t))
   <-> FieldInfo.return_expresion self = true
       /\ FieldInfo.regex self = true
       /\ forall s, effective_name self <> PyStr s)
  /\ (forall t, snd (FieldInfo.name polars_col self) = Raise (TypeError_concat t) ->
                t = type_name (effective_name self))
  /\ (FieldInfo.return_expresion self = false ->
      snd (FieldInfo.name polars_col self) = Ok (Val (effective_name self)))
  /\ (forall s, effective_name self = PyStr s ->
                exists r, snd (FieldInfo.name polars_col self) = Ok r).
Proof.
  assert (Cn : forall v t, col polars_col v <> Raise (TypeError_concat t)).
  { intros v t. unfold col. destruct v; try discriminate;
      destruct (polars_col _); discriminate. }
  rewrite name_run. simpl.
  destruct (FieldInfo.return_expresion self), (FieldInfo.regex self),
    (effective_name self) as [| | |s0| |] eqn:E;
    simpl; repeat split; intros;
    repeat match goal with
           | H : exists _, _ |- _ => destruct H
           | H : _ /\ _ |- _ => destruct H
           end;
    try discriminate; try congruence;
    try (exfalso; eapply Cn; eassumption);
    try match goal with
        | H : match polars_col ?v with _ => _ end = _ |- _ =>
            destruct (polars_col v); discriminate
        end;
    try (exfalso; match goal with
                  | H : forall s, _ <> PyStr s |- _ => eapply H; reflexivity
                  end);
    try (repeat split; discriminate);
    eauto.
Qed.

(** X10. The name of a descriptor that [Field] returned, once the schema layer
    has assigned [original_name], is decided by three arguments of that call
    and by nothing else of it: [alias] (the assigned name is used only when
    [alias] is [None]), [regex] and [return_expresion].  The constraints play
    no part, and resolving the name leaves the checks of the descriptor as
    [Field] compiled them. *)
Theorem X10_name_of_a_compiled_field reg a (tr tr' : trace) fi o :
  Field reg a tr = (tr', Ok fi) ->
  snd (FieldInfo.name polars_col (FieldInfo.set_original_name fi o))
  = (let name := if is_None (Kw.alias a) then o else Kw.alias a in
     if Kw.return_expresion a then
       if Kw.regex a then
         match name with
         | PyStr s => Ok (Col (PyStr ("^" ++ s ++ "$")%string))
         | v => Raise (TypeError_concat (type_name v))
         end
       else col polars_col name
     else Ok (Val name))
  /\ FieldInfo.checks
       (fst (FieldInfo.name polars_col (FieldInfo.set_original_name fi o)))
     = FieldInfo.checks fi.
Proof.
  intros R. destruct (Field_Ok_inv reg a tr tr' fi R) as [F U].
  rewrite (Field_ok reg a tr F U) in R. injection R as _ <-.
  rewrite name_run. unfold effective_name. cbv zeta.
  cbn [FieldInfo.set_original_name descriptor FieldInfo.alias
       FieldInfo.original_name FieldInfo.regex FieldInfo.return_expresion
       FieldInfo.checks fst snd].
  destruct (Kw.return_expresion a), (Kw.regex a); try (split; reflexivity).
  destruct (if is_None (Kw.alias a) then o else Kw.alias a); split; reflexivity.
Qed.

Lemma append_char_inj (s s' : string) c :
  (s ++ String c "")%string = (s' ++ String c "")%string -> s = s'.
Proof.
  revert s'. induction s as [|x s IH]; intros [|x' s'] H; simpl in H.
  - reflexivity.
  - injection H as _ H. destruct s'; discriminate.
  - injection H as _ H. destruct s; discriminate.
  - injection H as -> H. f_equal. apply IH, H.
Qed.

(** X11. For names that are strings, and in a given mode -- the same [regex]
    and the same [return_expresion] -- name resolution tells names apart: two
    descriptors with different effective names resolve to different values.
    Anchoring loses nothing. *)
Theorem X11_distinct_names_distinct_outcomes self self' s s' :
  effective_name self = PyStr s ->
  effective_name self' = PyStr s' ->
  FieldInfo.regex self = FieldInfo.regex self' ->
  FieldInfo.return_expresion self = FieldInfo.return_expresion self' ->
  s <> s' ->
  snd (FieldInfo.name polars_col self) <> snd (FieldInfo.name polars_col self').
Proof.
  intros E E' R X D. rewrite !name_run. simpl. rewrite <- R, <- X, E, E'.
  destruct (FieldInfo.return_expresion self), (FieldInfo.regex self); simpl;
    intros H; injection H as H; try (apply D; exact H).
  apply append_char_inj in H. apply D. exact H.
Qed.

(** X12. Across modes it does not: with expression emission, a field named
    [s] with [regex] and a field without [regex] whose name is literally
    ["^" + s + "$"] resolve to the same selector.  The expression alone does
    not tell whether the anchors were added by name resolution. *)
Theorem X12_anchored_name_collides_with_literal self self' s :
  FieldInfo.return_expresion self = true ->
  FieldInfo.regex self = true ->
  effective_name self = PyStr s ->
  FieldInfo.return_expresion self' = true ->
  FieldInfo.regex self' = false ->
  effective_name self' = PyStr ("^" ++ s ++ "$")%string ->
  snd (FieldInfo.name polars_col self) = snd (FieldInfo.name polars_col self')
  /\ snd (FieldInfo.name polars_col self)
     = Ok (Col (PyStr ("^" ++ s ++ "$")%string)).
Proof.
  intros X R E X' R' E'. rewrite !name_run. simpl.
  rewrite X, R, E, X', R', E'. split; reflexivity.
Qed.

End Externals.

(** * Instances

    The statements above at particular calls, with the check library
    [bounds_required] and the [col] that takes strings only. *)

Lemma bounds_required_order f args named named' :
  Permutation named named' ->
  bounds_required f args named = bounds_required f args named'.
Proof.
  intros P. unfold bounds_required, has_bounds.
  rewrite !(dict_mem_Permutation _ _ _ P). reflexivity.
Qed.

(** ** C1 *)

(** C1 does not hold of every unknown keyword of a call: in
    [Field(foo=1, bar=2)] the keyword [bar] is neither fixed nor registered,
    and the message of the error names [foo], not [bar]. *)
Lemma C1_second_unknown_counterexample :
  In "bar" (dict_keys (Kw.kwargs (Kw.with_kwargs Kw.defaults
                                   [("foo", PyInt 1); ("bar", PyInt 2)])))
  /\ dict_mem "bar" fixed_dispatch = false
  /\ dict_mem "bar" (@nil (string * constructor)) = false
  /\ Field bounds_required []
       (Kw.with_kwargs Kw.defaults [("foo", PyInt 1); ("bar", PyInt 2)]) []
     = ([], Raise (SchemaInitError
              "custom check 'foo' is not available. Make sure you use pandera.extensions.register_check_method decorator to register your custom check method."))
  /\ not_available "foo" <> not_available "bar".
Proof.
  split; [simpl; auto|]. split; [reflexivity|]. split; [reflexivity|].
  split; [reflexivity|]. discriminate.
Qed.

Lemma C1_unknown_keyword_raises_witness :
  exists pre bad post,
    dict_keys (Kw.kwargs (Kw.with_kwargs Kw.defaults
                            [("is_even", PyBool true); ("foo", PyInt 1)]))
    = pre ++ bad :: post
    /\ forallb (fun k => dict_mem k fixed_dispatch
                         || dict_mem k [("is_even", Check_custom "is_even")])
         pre = true
    /\ dict_mem bad fixed_dispatch = false
    /\ dict_mem bad [("is_even", Check_custom "is_even")] = false
    /\ (bad = "foo" \/ In "foo" post)
    /\ ((forall k,
            In k (dict_keys (Kw.kwargs (Kw.with_kwargs Kw.defaults
                                          [("is_even", PyBool true);
                                           ("foo", PyInt 1)]))) ->
            dict_mem k fixed_dispatch = false ->
            dict_mem k [("is_even", Check_custom "is_even")] = false ->
            k = "foo") ->
        bad = "foo")
    /\ (forall tr : trace,
          Field bounds_required [("is_even", Check_custom "is_even")]
            (Kw.with_kwargs Kw.defaults
               [("is_even", PyBool true); ("foo", PyInt 1)]) tr
          = (tr, Raise (SchemaInitError
                   ("custom check '" ++ bad
                    ++ "' is not available. Make sure you use "
                    ++ "pandera.extensions.register_check_method decorator to "
                    ++ "register your custom check method.")%string))).
Proof.
  apply (C1_unknown_keyword_raises bounds_required
           [("is_even", Check_custom "is_even")]
           (Kw.with_kwargs Kw.defaults
              [("is_even", PyBool true); ("foo", PyInt 1)])
           "foo").
  - simpl. auto.
  - reflexivity.
  - reflexivity.
Defined.

(** ** C2 *)

Lemma C2_checks_in_table_order_witness :
  dict_keys (_check_dispatch [("is_even", Check_custom "is_even")])
  = ["eq"; "ne"; "gt"; "ge"; "lt"; "le"; "in_range"; "between"; "isin";
     "notin"; "str_contains"; "str_endswith"; "str_matches"; "str_length";
     "str_startswith"; "unique_values_eq"]
    ++ new_keys fixed_keywords [("is_even", Check_custom "is_even")]
  /\ FieldInfo.checks
       (descriptor Field_several
          (Some [ mkCheck Check_greater_than [PyInt 5] (check_kwargs Field_several);
                  mkCheck Check_between []
                    ([("min_value", PyInt 0); ("max_value", PyInt 3)]
                     ++ check_kwargs Field_several);
                  mkCheck Check_isin [PyList [PyInt 1; PyInt 2; PyInt 3]]
                    (check_kwargs Field_several);
                  mkCheck Check_str_startswith [PyStr "a"]
                    (check_kwargs Field_several);
                  mkCheck (Check_custom "is_even") [PyBool true]
                    (check_kwargs Field_several) ]))
     = or_None
         [ mkCheck Check_greater_than [PyInt 5] (check_kwargs Field_several);
           mkCheck Check_between []
             ([("min_value", PyInt 0); ("max_value", PyInt 3)]
              ++ check_kwargs Field_several);
           mkCheck Check_isin [PyList [PyInt 1; PyInt 2; PyInt 3]]
             (check_kwargs Field_several);
           mkCheck Check_str_startswith [PyStr "a"] (check_kwargs Field_several);
           mkCheck (Check_custom "is_even") [PyBool true]
             (check_kwargs Field_several) ]
  /\ [ mkCheck Check_greater_than [PyInt 5] (check_kwargs Field_several);
       mkCheck Check_between []
         ([("min_value", PyInt 0); ("max_value", PyInt 3)]
          ++ check_kwargs Field_several);
       mkCheck Check_isin [PyList [PyInt 1; PyInt 2; PyInt 3]]
         (check_kwargs Field_several);
       mkCheck Check_str_startswith [PyStr "a"] (check_kwargs Field_several);
       mkCheck (Check_custom "is_even") [PyBool true]
         (check_kwargs Field_several) ]
     = map (check_of Field_several)
         (filter (is_set Field_several)
            (_check_dispatch [("is_even", Check_custom "is_even")]))
  /\ (exists tr' fi',
       run (Field bounds_required [("is_even", Check_custom "is_even")]
              (Kw.with_kwargs Field_several
                 [ ("between",
                    PyDict [(PyStr "min_value", PyInt 0);
                            (PyStr "max_value", PyInt 3)]);
                   ("is_even", PyBool true) ]))
       = (tr', Ok fi')
       /\ FieldInfo.checks fi' = or_None tr'
       /\ tr' = map (check_of
                       (Kw.with_kwargs Field_several
                          [ ("between",
                             PyDict [(PyStr "min_value", PyInt 0);
                                     (PyStr "max_value", PyInt 3)]);
                            ("is_even", PyBool true) ]))
                  (filter (is_set Field_several)
                     (_check_dispatch [("is_even", Check_custom "is_even")]))
       /\ Forall2 same_call
            [ mkCheck Check_greater_than [PyInt 5] (check_kwargs Field_several);
              mkCheck Check_between []
                ([("min_value", PyInt 0); ("max_value", PyInt 3)]
                 ++ check_kwargs Field_several);
              mkCheck Check_isin [PyList [PyInt 1; PyInt 2; PyInt 3]]
                (check_kwargs Field_several);
              mkCheck Check_str_startswith [PyStr "a"]
                (check_kwargs Field_several);
              mkCheck (Check_custom "is_even") [PyBool true]
                (check_kwargs Field_several) ]
            tr').
Proof.
  destruct (C2_checks_in_table_order bounds_required
              [("is_even", Check_custom "is_even")] Field_several
              [ ("between",
                 PyDict [(PyStr "min_value", PyInt 0);
                         (PyStr "max_value", PyInt 3)]);
                ("is_even", PyBool true) ]
              (fst (run (Field bounds_required
                           [("is_even", Check_custom "is_even")] Field_several)))
              (descriptor Field_several
                 (or_None
                    (fst (run (Field bounds_required
                                 [("is_even", Check_custom "is_even")]
                                 Field_several))))))
    as (H1 & H2 & H3 & H4).
  - reflexivity.
  - apply perm_swap.
  - reflexivity.
  - split; [exact H1|]. split; [exact H2|]. split; [exact H3|].
    exact (H4 bounds_required_order).
Defined.

(** ** C3 *)



(** ** C4 *)

(** C4 does not hold for every mapping: one that has a key of the shared
    options is not merged with them.  [Field(in_range={"min_value": 0,
    "max_value": 10, "ignore_na": False})] raises the [TypeError] of a keyword
    given twice, and [Check.in_range] is not invoked. *)
Lemma C4_mapping_clash_counterexample :
  In "in_range" fixed_keywords
  /\ arg_value Field_in_range_ignore_na "in_range"
     = PyDict [(PyStr "min_value", PyInt 0); (PyStr "max_value", PyInt 10);
               (PyStr "ignore_na", PyBool false)]
  /\ run (Field bounds_required [] Field_in_range_ignore_na)
     = ([], Raise (TypeError_multiple_values Check_in_range "ignore_na"))
  /\ ~ (exists tr fi,
           run (Field bounds_required [] Field_in_range_ignore_na) = (tr, Ok fi)).
Proof.
  split; [simpl; auto 10|]. split; [reflexivity|]. split; [reflexivity|].
  intros (tr & fi & H). vm_compute in H. discriminate.
Qed.

Lemma C4_mapping_keyword_witness :
  ((exists rest,
       fst (Field bounds_required [] Field_in_range_0_10 [])
       = [] ++ map (check_of Field_in_range_0_10)
                 (filter (is_set Field_in_range_0_10)
                    [ ("eq", Check_equal_to); ("ne", Check_not_equal_to);
                      ("gt", Check_greater_than);
                      ("ge", Check_greater_than_or_equal_to);
                      ("lt", Check_less_than);
                      ("le", Check_less_than_or_equal_to) ])
         ++ mkCheck Check_in_range []
              ([("min_value", PyInt 0); ("max_value", PyInt 10)]
               ++ [ ("ignore_na", PyBool true); ("raise_warning", PyBool false);
                    ("n_failure_cases", PyNone) ])
            :: rest)
   /\ (forall fi,
          snd (Field bounds_required [] Field_in_range_0_10 []) = Ok fi ->
          exists cs,
            FieldInfo.checks fi = Some cs
            /\ In (mkCheck Check_in_range []
                     ([("min_value", PyInt 0); ("max_value", PyInt 10)]
                      ++ [ ("ignore_na", PyBool true);
                           ("raise_warning", PyBool false);
                           ("n_failure_cases", PyNone) ]))
                  cs))
  /\ (dict_mem "in_range" (@nil (string * constructor)) = false ->
      dict_get fixed_dispatch "in_range" = Some Check_in_range).
Proof.
  apply (C4_mapping_keyword bounds_required [] Field_in_range_0_10
           [ ("eq", Check_equal_to); ("ne", Check_not_equal_to);
             ("gt", Check_greater_than);
             ("ge", Check_greater_than_or_equal_to);
             ("lt", Check_less_than);
             ("le", Check_less_than_or_equal_to) ]
           "in_range" Check_in_range
           [ ("between", Check_between); ("isin", Check_isin);
             ("notin", Check_notin); ("str_contains", Check_str_contains);
             ("str_endswith", Check_str_endswith);
             ("str_matches", Check_str_matches);
             ("str_length", Check_str_length);
             ("str_startswith", Check_str_startswith);
             ("unique_values_eq", Check_unique_values_eq) ]
           [(PyStr "min_value", PyInt 0); (PyStr "max_value", PyInt 10)] []).
  - simpl. auto 10.
  - reflexivity.
  - reflexivity.
  - reflexivity.
  - reflexivity.
Defined.

(** A mapping with a key that is not a string:
    [Field(in_range={"min_value": 0, 10: "max_value"})]. *)
Example Field_in_range_int_key_run :
  run (Field bounds_required [] Field_in_range_int_key)
  = ([], Raise TypeError_keywords_must_be_strings).
Proof. reflexivity. Qed.

(** ** C5 *)

(** C5 does not hold of every call in which the caller sets no constraint
    keyword: with a custom check registered as [nullable], the call [Field()]
    reads the default [nullable=False] for it, invokes its constructor and
    passes a list of one check. *)
Lemma C5_registered_local_counterexample :
  Kw.kwargs Kw.defaults = []
  /\ forallb (fun k => is_None (arg_value Kw.defaults k)) fixed_keywords = true
  /\ run (Field bounds_required [("nullable", Check_custom "nullable")] Kw.defaults)
     = ([ mkCheck (Check_custom "nullable") [PyBool false]
            [ ("ignore_na", PyBool true); ("raise_warning", PyBool false);
              ("n_failure_cases", PyNone) ] ],
        Ok (FieldInfo.mk
              (Some [ mkCheck (Check_custom "nullable") [PyBool false]
                        [ ("ignore_na", PyBool true);
                          ("raise_warning", PyBool false);
                          ("n_failure_cases", PyNone) ] ])
              false false false false PyNone PyNone PyNone PyNone PyNone PyNone
              PyNone false PyNone)).
Proof. repeat split. Qed.

Lemma C5_nothing_set_checks_None_witness :
  fst (Field bounds_required [("is_even", Check_custom "is_even")]
         (Kw.with_kwargs Kw.defaults [("is_even", PyNone)]) []) = []
  /\ (forallb (fun key =>
                 dict_mem key (_check_dispatch [("is_even", Check_custom "is_even")]))
        ["is_even"] = true ->
      Field bounds_required [("is_even", Check_custom "is_even")]
        (Kw.with_kwargs Kw.defaults [("is_even", PyNone)]) []
      = ([], Ok (FieldInfo.mk None false false false false PyNone PyNone PyNone
                   PyNone PyNone PyNone PyNone false PyNone))).
Proof.
  apply (C5_nothing_set_checks_None bounds_required
           [("is_even", Check_custom "is_even")]
           (Kw.with_kwargs Kw.defaults [("is_even", PyNone)])).
  reflexivity.
Defined.

(** ** C6, C7 *)


(** The alias "b" in the four modes. *)
Example a_aliased_b_names :
  snd (FieldInfo.name strings_only (a_aliased_b false false)) = Ok (Val (PyStr "b"))
  /\ snd (FieldInfo.name strings_only (a_aliased_b true false))
     = Ok (Val (PyStr "b"))
  /\ snd (FieldInfo.name strings_only (a_aliased_b false true))
     = Ok (Col (PyStr "b"))
  /\ snd (FieldInfo.name strings_only (a_aliased_b true true))
     = Ok (Col (PyStr "^b$")).
Proof. repeat split. Qed.

Lemma C7_regex_anchoring_witness :
  snd (FieldInfo.name strings_only (aliased_x true true)) = Ok (Col (PyStr "^x$")).
Proof.
  apply (C7_regex_anchoring strings_only (aliased_x true true) "x"). reflexivity.
Defined.

(** The name "x" with [regex] and expression emission, with [regex] alone,
    and with expression emission alone. *)
Example aliased_x_names :
  snd (FieldInfo.name strings_only (aliased_x true true)) = Ok (Col (PyStr "^x$"))
  /\ snd (FieldInfo.name strings_only (aliased_x true false)) = Ok (Val (PyStr "x"))
  /\ snd (FieldInfo.name strings_only (aliased_x false true)) = Ok (Col (PyStr "x")).
Proof. repeat split. Qed.

(** ** C9 *)

Lemma C9_dispatch_reads_registry_witness :
  (forall k,
      dict_get (_check_dispatch
                  (dict_set [("is_odd", Check_custom "is_odd")] "is_even"
                     (Check_custom "is_even"))) k
      = match dict_get (dict_set [("is_odd", Check_custom "is_odd")] "is_even"
                          (Check_custom "is_even")) k with
        | Some c => Some c
        | None => dict_get fixed_dispatch k
        end)
  /\ dict_get (_check_dispatch
                 (dict_set [("is_odd", Check_custom "is_odd")] "is_even"
                    (Check_custom "is_even"))) "is_even"
     = Some (Check_custom "is_even")
  /\ (forall a v (tr : trace),
         Kw.kwargs a = [("is_even", v)] ->
         (dict_mem "is_even" (_check_dispatch [("is_odd", Check_custom "is_odd")])
          = false ->
          Field bounds_required [("is_odd", Check_custom "is_odd")] a tr
          = (tr, Raise (SchemaInitError (not_available "is_even"))))
         /\ (forall msg,
                snd (Field bounds_required
                       (dict_set [("is_odd", Check_custom "is_odd")] "is_even"
                          (Check_custom "is_even")) a tr)
                <> Raise (SchemaInitError msg)))
  /\ (forall a v,
         Kw.kwargs a = [("is_even", v)] ->
         dict_mem "is_even" (locals a) = false ->
         is_None v = false ->
         is_dict v = false ->
         only_set a "is_even"
           (_check_dispatch
              (dict_set [("is_odd", Check_custom "is_odd")] "is_even"
                 (Check_custom "is_even"))) = true ->
         bounds_required (Check_custom "is_even") [v] (check_kwargs a) = None ->
         run (Field bounds_required
                (dict_set [("is_odd", Check_custom "is_odd")] "is_even"
                   (Check_custom "is_even")) a)
         = ([mkCheck (Check_custom "is_even") [v] (check_kwargs a)],
            Ok (descriptor a
                  (Some [mkCheck (Check_custom "is_even") [v] (check_kwargs a)])))).
Proof.
  apply (C9_dispatch_reads_registry bounds_required
           [("is_odd", Check_custom "is_odd")] "is_even" (Check_custom "is_even")).
  reflexivity.
Defined.

(** The same call before and after the registration of [is_even]. *)
Example Field_is_even_before_and_after :
  run (Field bounds_required []
         (Kw.with_kwargs Kw.defaults [("is_even", PyBool true)]))
  = ([], Raise (SchemaInitError (not_available "is_even")))
  /\ run (Field bounds_required (dict_set [] "is_even" (Check_custom "is_even"))
            (Kw.with_kwargs Kw.defaults [("is_even", PyBool true)]))
     = ([mkCheck (Check_custom "is_even") [PyBool true]
           [("ignore_na", PyBool true); ("raise_warning", PyBool false);
            ("n_failure_cases", PyNone)]],
        Ok (descriptor (Kw.with_kwargs Kw.defaults [("is_even", PyBool true)])
              (Some [mkCheck (Check_custom "is_even") [PyBool true]
                       [("ignore_na", PyBool true); ("raise_warning", PyBool false);
                        ("n_failure_cases", PyNone)]]))).
Proof. split; reflexivity. Qed.

(** ** C10 *)



(** The four falsy values of [Field_falsy] give four checks. *)
Example Field_falsy_checks :
  fst (run (Field bounds_required [] Field_falsy))
  = [ mkCheck Check_equal_to [PyBool false] (check_kwargs Field_falsy);
      mkCheck Check_not_equal_to [PyInt 0] (check_kwargs Field_falsy);
      mkCheck Check_isin [PyList []] (check_kwargs Field_falsy);
      mkCheck Check_str_contains [PyStr ""] (check_kwargs Field_falsy) ].
Proof. reflexivity. Qed.

(** ** X2, X3 *)

Lemma X2_clash_after_earlier_checks_witness :
  Field bounds_required [] Field_gt_in_range_clash []
  = ([] ++ map (check_of Field_gt_in_range_clash)
             (filter (is_set Field_gt_in_range_clash)
                [ ("eq", Check_equal_to); ("ne", Check_not_equal_to);
                  ("gt", Check_greater_than);
                  ("ge", Check_greater_than_or_equal_to);
                  ("lt", Check_less_than);
                  ("le", Check_less_than_or_equal_to) ]),
     Raise (TypeError_multiple_values Check_in_range "ignore_na")).
Proof.
  apply (X2_clash_after_earlier_checks bounds_required [] Field_gt_in_range_clash
           [ ("eq", Check_equal_to); ("ne", Check_not_equal_to);
             ("gt", Check_greater_than);
             ("ge", Check_greater_than_or_equal_to);
             ("lt", Check_less_than);
             ("le", Check_less_than_or_equal_to) ]
           "in_range" Check_in_range
           [ ("between", Check_between); ("isin", Check_isin);
             ("notin", Check_notin); ("str_contains", Check_str_contains);
             ("str_endswith", Check_str_endswith);
             ("str_matches", Check_str_matches);
             ("str_length", Check_str_length);
             ("str_startswith", Check_str_startswith);
             ("unique_values_eq", Check_unique_values_eq) ]
           [(PyStr "min_value", PyInt 0); (PyStr "raise_warning", PyBool true);
            (PyStr "ignore_na", PyBool false)]
           "ignore_na" []); reflexivity.
Defined.

(** What that call leaves behind: [Check.greater_than] was invoked,
    [Check.str_matches] was not. *)
Example Field_gt_in_range_clash_run :
  run (Field bounds_required [] Field_gt_in_range_clash)
  = ([mkCheck Check_greater_than [PyInt 5]
        [("ignore_na", PyBool true); ("raise_warning", PyBool false);
         ("n_failure_cases", PyNone)]],
     Raise (TypeError_multiple_values Check_in_range "ignore_na")).
Proof. reflexivity. Qed.

Lemma X3_first_unknown_keyword_is_named_witness :
  Field bounds_required [("is_even", Check_custom "is_even")]
    (Kw.with_kwargs Kw.defaults
       [("is_even", PyBool true); ("foo", PyInt 1); ("bar", PyInt 2)]) []
  = ([], Raise (SchemaInitError
           ("custom check '" ++ "foo"
            ++ "' is not available. Make sure you use "
            ++ "pandera.extensions.register_check_method decorator to "
            ++ "register your custom check method.")%string)).
Proof.
  apply (X3_first_unknown_keyword_is_named bounds_required
           [("is_even", Check_custom "is_even")]
           (Kw.with_kwargs Kw.defaults
              [("is_even", PyBool true); ("foo", PyInt 1); ("bar", PyInt 2)])
           ["is_even"] "foo" ["bar"] []); reflexivity.
Defined.

(** ** X4, X5 *)

Lemma X4_checks_are_the_calls_witness :
  exists cs,
    fst (Field bounds_required [("is_even", Check_custom "is_even")]
           Field_several []) = [] ++ cs
    /\ descriptor Field_several
         (or_None (fst (Field bounds_required
                          [("is_even", Check_custom "is_even")]
                          Field_several [])))
       = FieldInfo.mk (match cs with [] => None | _ :: _ => Some cs end)
           (Kw.nullable Field_several) (Kw.unique Field_several)
           (Kw.coerce Field_several) (Kw.regex Field_several)
           (Kw.check_name Field_several) (Kw.alias Field_several)
           (Kw.title Field_several) (Kw.description Field_several)
           (Kw.default Field_several) (Kw.dtype_kwargs Field_several)
           (Kw.metadata Field_several) (Kw.return_expresion Field_several)
           PyNone
    /\ List.length cs
       = List.length (filter (fun item =>
                           negb (is_None (arg_value Field_several (fst item))))
                   (_check_dispatch [("is_even", Check_custom "is_even")]))
    /\ List.length cs <= 16 + List.length [("is_even", Check_custom "is_even")].
Proof.
  apply (X4_checks_are_the_calls bounds_required
           [("is_even", Check_custom "is_even")] Field_several []
           (fst (Field bounds_required [("is_even", Check_custom "is_even")]
                   Field_several []))
           (descriptor Field_several
              (or_None (fst (Field bounds_required
                               [("is_even", Check_custom "is_even")]
                               Field_several []))))).
  reflexivity.
Defined.

(** The five checks of [Field_several], in the order of the table. *)
Example Field_several_checks :
  fst (run (Field bounds_required [("is_even", Check_custom "is_even")]
              Field_several))
  = [ mkCheck Check_greater_than [PyInt 5] (check_kwargs Field_several);
      mkCheck Check_between []
        ([("min_value", PyInt 0); ("max_value", PyInt 3)]
         ++ check_kwargs Field_several);
      mkCheck Check_isin [PyList [PyInt 1; PyInt 2; PyInt 3]]
        (check_kwargs Field_several);
      mkCheck Check_str_startswith [PyStr "a"] (check_kwargs Field_several);
      mkCheck (Check_custom "is_even") [PyBool true]
        (check_kwargs Field_several) ].
Proof. reflexivity. Qed.

Lemma X5_shape_of_every_check_witness :
  exists k,
    In (k, check_fn
             (mkCheck Check_in_range []
                [ ("min_value", PyInt 0); ("max_value", PyInt 10);
                  ("ignore_na", PyBool true); ("raise_warning", PyBool false);
                  ("n_failure_cases", PyNone) ]))
       (_check_dispatch [])
    /\ arg_value Field_in_range_0_10 k <> PyNone
    /\ match arg_value Field_in_range_0_10 k with
       | PyDict entries =>
           check_args
             (mkCheck Check_in_range []
                [ ("min_value", PyInt 0); ("max_value", PyInt 10);
                  ("ignore_na", PyBool true); ("raise_warning", PyBool false);
                  ("n_failure_cases", PyNone) ]) = []
           /\ exists named,
                keywords entries = Some named
                /\ check_named
                     (mkCheck Check_in_range []
                        [ ("min_value", PyInt 0); ("max_value", PyInt 10);
                          ("ignore_na", PyBool true);
                          ("raise_warning", PyBool false);
                          ("n_failure_cases", PyNone) ])
                   = named
                     ++ [ ("ignore_na", PyBool (Kw.ignore_na Field_in_range_0_10));
                          ("raise_warning",
                           PyBool (Kw.raise_warning Field_in_range_0_10));
                          ("n_failure_cases",
                           Kw.n_failure_cases Field_in_range_0_10) ]
       | v =>
           check_args
             (mkCheck Check_in_range []
                [ ("min_value", PyInt 0); ("max_value", PyInt 10);
                  ("ignore_na", PyBool true); ("raise_warning", PyBool false);
                  ("n_failure_cases", PyNone) ]) = [v]
           /\ check_named
                (mkCheck Check_in_range []
                   [ ("min_value", PyInt 0); ("max_value", PyInt 10);
                     ("ignore_na", PyBool true); ("raise_warning", PyBool false);
                     ("n_failure_cases", PyNone) ])
              = [ ("ignore_na", PyBool (Kw.ignore_na Field_in_range_0_10));
                  ("raise_warning", PyBool (Kw.raise_warning Field_in_range_0_10));
                  ("n_failure_cases", Kw.n_failure_cases Field_in_range_0_10) ]
       end.
Proof.
  apply (X5_shape_of_every_check bounds_required [] Field_in_range_0_10 []
           (fst (Field bounds_required [] Field_in_range_0_10 []))
           (descriptor Field_in_range_0_10
              (or_None (fst (Field bounds_required [] Field_in_range_0_10 []))))
           (fst (Field bounds_required [] Field_in_range_0_10 []))).
  - reflexivity.
  - reflexivity.
  - left. reflexivity.
Defined.

(** ** X7, X8 *)

Lemma X7_registered_name_replaces_builtin_witness :
  dict_get (_check_dispatch [("eq", Check_custom "my_eq")]) "eq"
  = Some (Check_custom "my_eq")
  /\ forall a (tr tr' : trace) fi,
       Field bounds_required [("eq", Check_custom "my_eq")] a tr = (tr', Ok fi) ->
       is_None (arg_value a "eq") = false ->
       is_dict (arg_value a "eq") = false ->
       exists cs,
         FieldInfo.checks fi = Some cs
         /\ In (mkCheck (Check_custom "my_eq") [arg_value a "eq"]
                  (check_kwargs a)) cs.
Proof.
  apply (X7_registered_name_replaces_builtin bounds_required
           [("eq", Check_custom "my_eq")] "eq" Check_equal_to
           (Check_custom "my_eq")); reflexivity.
Defined.

(** [Field(eq=5)] with a custom check registered as [eq]: [Check.equal_to] is
    not called. *)
Example Field_eq_5_registered_eq :
  fst (run (Field bounds_required [("eq", Check_custom "my_eq")] Field_eq_5))
  = [mkCheck (Check_custom "my_eq") [PyInt 5] (check_kwargs Field_eq_5)].
Proof. reflexivity. Qed.

Lemma X8_locals_before_kwargs_witness :
  arg_value (Kw.with_kwargs Kw.defaults [("is_even", PyBool true)]) "unique"
  = PyBool false
  /\ exists cs,
       FieldInfo.checks
         (descriptor (Kw.with_kwargs Kw.defaults [("is_even", PyBool true)])
            (or_None
               (fst (Field bounds_required
                       [ ("is_even", Check_custom "is_even");
                         ("unique", Check_custom "unique") ]
                       (Kw.with_kwargs Kw.defaults [("is_even", PyBool true)])
                       []))))
       = Some cs
       /\ In (mkCheck (Check_custom "unique") [PyBool false]
                (check_kwargs
                   (Kw.with_kwargs Kw.defaults [("is_even", PyBool true)])))
            cs.
Proof.
  apply (X8_locals_before_kwargs bounds_required
           [("is_even", Check_custom "is_even"); ("unique", Check_custom "unique")]
           (Kw.with_kwargs Kw.defaults [("is_even", PyBool true)])
           "unique" (Check_custom "unique") (PyBool false) []
           (fst (Field bounds_required
                   [ ("is_even", Check_custom "is_even");
                     ("unique", Check_custom "unique") ]
                   (Kw.with_kwargs Kw.defaults [("is_even", PyBool true)]) []))
           (descriptor (Kw.with_kwargs Kw.defaults [("is_even", PyBool true)])
              (or_None
                 (fst (Field bounds_required
                         [ ("is_even", Check_custom "is_even");
                           ("unique", Check_custom "unique") ]
                         (Kw.with_kwargs Kw.defaults [("is_even", PyBool true)])
                         []))))); reflexivity.
Defined.

(** ** X10, X11, X12 *)

Lemma X10_name_of_a_compiled_field_witness :
  snd (FieldInfo.name strings_only
         (FieldInfo.set_original_name
            (descriptor Field_several
               (or_None (fst (Field bounds_required
                                [("is_even", Check_custom "is_even")]
                                Field_several []))))
            (PyStr "price")))
  = Ok (Val (PyStr "price"))
  /\ FieldInfo.checks
       (fst (FieldInfo.name strings_only
               (FieldInfo.set_original_name
                  (descriptor Field_several
                     (or_None (fst (Field bounds_required
                                      [("is_even", Check_custom "is_even")]
                                      Field_several []))))
                  (PyStr "price"))))
     = FieldInfo.checks
         (descriptor Field_several
            (or_None (fst (Field bounds_required
                             [("is_even", Check_custom "is_even")]
                             Field_several [])))).
Proof.
  apply (X10_name_of_a_compiled_field bounds_required strings_only
           [("is_even", Check_custom "is_even")] Field_several []
           (fst (Field bounds_required [("is_even", Check_custom "is_even")]
                   Field_several []))
           (descriptor Field_several
              (or_None (fst (Field bounds_required
                               [("is_even", Check_custom "is_even")]
                               Field_several []))))
           (PyStr "price")).
  reflexivity.
Defined.

Lemma X11_distinct_names_distinct_outcomes_witness :
  snd (FieldInfo.name strings_only (aliased_x true true))
  <> snd (FieldInfo.name strings_only (declared "y" true true)).
Proof.
  apply (X11_distinct_names_distinct_outcomes strings_only
           (aliased_x true true) (declared "y" true true) "x" "y").
  - reflexivity.
  - reflexivity.
  - reflexivity.
  - reflexivity.
  - discriminate.
Defined.

Lemma X12_anchored_name_collides_with_literal_witness :
  snd (FieldInfo.name strings_only (aliased_x true true))
  = snd (FieldInfo.name strings_only
           (FieldInfo.mk None false false false false PyNone (PyStr "^x$")
              PyNone PyNone PyNone PyNone PyNone true PyNone))
  /\ snd (FieldInfo.name strings_only (aliased_x true true))
     = Ok (Col (PyStr "^x$")).
Proof.
  apply (X12_anchored_name_collides_with_literal strings_only
           (aliased_x true true)
           (FieldInfo.mk None false false false false PyNone (PyStr "^x$")
              PyNone PyNone PyNone PyNone PyNone true PyNone)
           "x"); reflexivity.
Defined.

(** A name that is not a string: without an alias and before the schema layer
    has assigned [original_name], the anchored selector cannot be built, and
    the plain selector is refused by [col]. *)
Example unnamed_field_names :
  snd (FieldInfo.name strings_only
         (FieldInfo.mk None false false false true PyNone PyNone PyNone PyNone
            PyNone PyNone PyNone true PyNone))
  = Raise (TypeError_concat "NoneType")
  /\ snd (FieldInfo.name strings_only
            (FieldInfo.mk None false false false false PyNone PyNone PyNone
               PyNone PyNone PyNone PyNone true PyNone))
     = Raise (Propagated "TypeError: invalid input for col, a NoneType")
  /\ snd (FieldInfo.name strings_only
            (FieldInfo.mk None false false false true PyNone PyNone PyNone
               PyNone PyNone PyNone PyNone false PyNone))
     = Ok (Val PyNone).
Proof. repeat split. Qed.
